(** * Financial PDF extraction: a shallow embedding of the text-extraction
    cascade and the S3 access ([pdf_processor.py]), the attribute extractor's
    JSON handling and the chatbot ([bedrock_client.py]), the batch
    coordinator, the chat interface ([bot_interface.py]), the year-over-year
    sheet and the quality report ([excel_generator.py]) and the UI
    ([app.py]).

    Python floats are modelled as exact rationals [Q], except in the
    year-over-year sheet, whose pandas float64 arithmetic is modelled as
    IEEE binary64 (Stdlib's SpecFloat); Python strings as
    [String.string] over ASCII.  The third-party libraries (pdfplumber,
    PyMuPDF, pytesseract, json, boto3) are inputs: records of functions, one
    field per library call the code makes, with [exn_or] results where the
    call can raise. *)

From Stdlib Require Import String Ascii List ZArith QArith Qabs Lia Lqa Bool Permutation Sorted.
From Stdlib Require Qcanon.
From Stdlib Require SpecFloat.
Import ListNotations.
Open Scope string_scope.
Local Set Warnings "-register-all,-abstract-large-number".

(** A Python exception is represented by its message [str(e)]. *)
Definition exn_or (A : Type) : Type := (string + A)%type.

Definition bytes : Type := list Byte.byte.

(** ** Python string helpers *)

(** [str.isspace] on ASCII: \t \n \v \f \r, the separators \x1c..\x1f, space. *)
Definition py_isspace (c : ascii) : bool :=
  let n := nat_of_ascii c in
  (((9 <=? n) && (n <=? 13)) || ((28 <=? n) && (n <=? 32)))%nat.

Fixpoint drop_space (l : list ascii) : list ascii :=
  match l with
  | [] => []
  | c :: r => if py_isspace c then drop_space r else l
  end.

(** [str.strip()] with no argument. *)
Definition py_strip (s : string) : string :=
  string_of_list_ascii
    (rev (drop_space (rev (drop_space (list_ascii_of_string s))))).

(** [sep.join(parts)]. *)
Fixpoint py_join (sep : string) (parts : list string) : string :=
  match parts with
  | [] => ""
  | [p] => p
  | p :: r => p ++ sep ++ py_join sep r
  end.

(** Truthiness of a Python string. *)
Definition py_truthy (s : string) : bool :=
  match s with EmptyString => false | _ => true end.

(** [int(x)] on a float truncates toward zero. *)
Definition py_int (q : Q) : Z := Z.quot (Qnum q) (Zpos (Qden q)).

(** ** The result dictionary of [extract_text_from_pdf] *)

Record extraction_result := mk_result {
  filename : string;
  text : string;
  page_count : nat;
  extraction_method : string;
  processing_time : Q;
  has_text : bool;
  has_images : bool;
  confidence_score : Q;
  errors : list string
}.

(** The dictionary returned by [_extract_with_ocr], merged into the result
    with [result.update(ocr_result)]. *)
Record ocr_result := mk_ocr {
  ocr_text : string;
  ocr_extraction_method : string;
  ocr_has_text : bool;
  ocr_has_images : bool;
  ocr_confidence_score : Q;
  ocr_errors : list string
}.

(** The library calls the extractor makes.  [pdfplumber_pages b] is
    [pdfplumber.open(io.BytesIO(b))] followed by [page.extract_text()] on
    each page ([None] when a page yields no text); [fitz_open b] is
    [fitz.open(stream=b, filetype="pdf")] with its pages; the OCR path
    renders a page at a zoom factor to PNG ([page.get_pixmap], [tobytes],
    [Image.open]) and runs [pytesseract.image_to_data], giving the [text] and
    [conf] columns zipped. [elapsed] is [time.time() - start_time]. *)
Record pdf_env (page image : Type) := {
  pdfplumber_pages : bytes -> exn_or (list (exn_or (option string)));
  fitz_open : bytes -> exn_or (list page);
  page_get_text : page -> exn_or string;
  page_to_image : page -> Q -> exn_or image;
  image_to_data : image -> exn_or (list (string * Q));
  elapsed : Q
}.

Arguments pdfplumber_pages {page image}.
Arguments fitz_open {page image}.
Arguments page_get_text {page image}.
Arguments page_to_image {page image}.
Arguments image_to_data {page image}.
Arguments elapsed {page image}.

(** ["\n"]. *)
Definition nl : string := String "010" "".

(** The strategies, in the order the cascade may call them. *)
Inductive strategy := Native | Alternate | OCR.

Section Extraction.
Context {page image : Type} (E : pdf_env page image).

(** [_extract_with_pdfplumber]: any exception yields [""]. *)
Definition _extract_with_pdfplumber (b : bytes) : string :=
  match pdfplumber_pages E b with
  | inl _ => ""
  | inr pages =>
      let fix go (ps : list (exn_or (option string))) : exn_or (list string) :=
        match ps with
        | [] => inr []
        | inl e :: _ => inl e
        | inr None :: r => go r
        | inr (Some t) :: r =>
            match go r with
            | inl e => inl e
            | inr ts => inr (if py_truthy t then t :: ts else ts)
            end
        end in
      match go pages with
      | inl _ => ""
      | inr parts => py_join nl parts
      end
  end.

(** [_extract_with_pymupdf]: pages whose text is blank are skipped; any
    exception yields [""]. *)
Definition _extract_with_pymupdf (b : bytes) : string :=
  match fitz_open E b with
  | inl _ => ""
  | inr doc =>
      let fix go (ps : list page) : exn_or (list string) :=
        match ps with
        | [] => inr []
        | p :: r =>
            match page_get_text E p with
            | inl e => inl e
            | inr t =>
                match go r with
                | inl e => inl e
                | inr ts => inr (if py_truthy (py_strip t) then t :: ts else ts)
                end
            end
        end in
      match go doc with
      | inl _ => ""
      | inr parts => py_join nl parts
      end
  end.

(** The per-word filter of the OCR loop: [if word.strip():] and
    [int(conf) > 30]; kept words carry their [int(conf)]. *)
Definition ocr_keep (wc : string * Q) : bool :=
  py_truthy (py_strip (fst wc)) && (30 <? py_int (snd wc))%Z.

(** The state threaded through the OCR page loop:
    [(text_parts, total_confidence, page_count)]. *)
Definition ocr_acc : Type := (list string * Q * nat)%type.

(** One iteration of the page loop on the [(word, conf)] pairs of a page. *)
Definition ocr_page_step (acc : ocr_acc) (data : list (string * Q)) : ocr_acc :=
  let '(parts, total, n) := acc in
  let kept := filter ocr_keep data in
  match kept with
  | [] => acc
  | _ =>
      let page_text := py_join " " (map fst kept) in
      let confs := map (fun wc => py_int (snd wc)) kept in
      let page_confidence :=
        inject_Z (fold_right Z.add 0%Z confs) / inject_Z (Z.of_nat (length confs)) in
      (app parts [page_text], total + page_confidence, S n)
  end.

(** The OCR data of the first [k] pages, each rendered at zoom 2; the first
    exception aborts the loop. *)
Fixpoint ocr_pages_data (ps : list page) : exn_or (list (list (string * Q))) :=
  match ps with
  | [] => inr []
  | p :: r =>
      match page_to_image E p 2 with
      | inl e => inl e
      | inr img =>
          match image_to_data E img with
          | inl e => inl e
          | inr d =>
              match ocr_pages_data r with
              | inl e => inl e
              | inr ds => inr (d :: ds)
              end
          end
      end
  end.

Definition ocr_base : ocr_result :=
  mk_ocr "" "ocr" false true 0 [].

(** [_extract_with_ocr]. *)
Definition _extract_with_ocr (b : bytes) : ocr_result :=
  match fitz_open E b with
  | inl e => mk_ocr "" "ocr" false true 0 ["OCR failed: " ++ e]
  | inr doc =>
      match ocr_pages_data (firstn 10 doc) with
      | inl e => mk_ocr "" "ocr" false true 0 ["OCR failed: " ++ e]
      | inr datas =>
          let '(parts, total, n) := fold_left ocr_page_step datas ([], 0, O) in
          match parts with
          | [] => mk_ocr "" "ocr" false true 0 ["OCR could not extract readable text"]
          | _ =>
              mk_ocr (py_join nl parts) "ocr" true true
                (if (0 <? n)%nat then total / inject_Z (Z.of_nat n) / 100 else 0) []
          end
      end
  end.

(** [result.update(ocr_result)]. *)
Definition update_with_ocr (r : extraction_result) (o : ocr_result) : extraction_result :=
  mk_result (filename r) (ocr_text o) (page_count r) (ocr_extraction_method o)
    (processing_time r) (ocr_has_text o) (ocr_has_images o)
    (ocr_confidence_score o) (ocr_errors o).

(** [result.update({text, extraction_method, has_text: True, confidence_score})]. *)
Definition update_with_text (r : extraction_result) (t m : string) (c : Q)
  : extraction_result :=
  mk_result (filename r) t (page_count r) m (processing_time r) true
    (has_images r) c (errors r).

Definition initial_result (fname : string) : extraction_result :=
  mk_result fname "" O "" 0 false false 0 [].

(** [if text_content and len(text_content.strip()) > 100]. *)
Definition wins (t : string) : bool :=
  py_truthy t && (100 <? String.length (py_strip t))%nat.

(** The cascade, lines 158-186, returning the result and the strategies
    called, in call order. *)
Definition cascade (b : bytes) (r : extraction_result)
  : extraction_result * list strategy :=
  let t1 := _extract_with_pdfplumber b in
  if wins t1 then (update_with_text r t1 "pdfplumber" (95 # 100), [Native])
  else
    let t2 := _extract_with_pymupdf b in
    if wins t2 then (update_with_text r t2 "pymupdf" (90 # 100), [Native; Alternate])
    else (update_with_ocr r (_extract_with_ocr b), [Native; Alternate; OCR]).

(** The page count, lines 189-194: failures are only logged. *)
Definition set_page_count (b : bytes) (r : extraction_result) : extraction_result :=
  match fitz_open E b with
  | inl _ => r
  | inr doc =>
      mk_result (filename r) (text r) (length doc) (extraction_method r)
        (processing_time r) (has_text r) (has_images r) (confidence_score r)
        (errors r)
  end.

(** The sufficiency check, lines 198-200. *)
Definition sufficiency_check (r : extraction_result) : extraction_result :=
  if negb (py_truthy (text r)) || (String.length (py_strip (text r)) <? 50)%nat
  then mk_result (filename r) (text r) (page_count r) (extraction_method r)
         (processing_time r) (has_text r) (has_images r) (1 # 10)
         (app (errors r) ["Insufficient text extracted from PDF"])
  else r.

(** Lines 158-196: the cascade, the page count and the processing time. *)
Definition extract_before_check (b : bytes) (fname : string)
  : extraction_result * list strategy :=
  let '(r1, calls) := cascade b (initial_result fname) in
  let r2 := set_page_count b r1 in
  (mk_result (filename r2) (text r2) (page_count r2)
     (extraction_method r2) (elapsed E) (has_text r2) (has_images r2)
     (confidence_score r2) (errors r2), calls).

(** The body of the [try] block: every step catches its own exceptions, so
    the body produces a value ([inr]); the [except] branch of lines 204-211
    handles an [inl]. *)
Definition extract_body (b : bytes) (fname : string)
  : exn_or (extraction_result * list strategy) :=
  let '(r3, calls) := extract_before_check b fname in
  inr (sufficiency_check r3, calls).

(** [extract_text_from_pdf], with the list of strategies it called. *)
Definition extract_text_from_pdf_traced (b : bytes) (fname : string)
  : extraction_result * list strategy :=
  match extract_body b fname with
  | inr rc => rc
  | inl e =>
      let r := initial_result fname in
      (mk_result fname (text r) (page_count r) (extraction_method r)
         (elapsed E) (has_text r) (has_images r) 0 [e], [])
  end.

Definition extract_text_from_pdf (b : bytes) (fname : string) : extraction_result :=
  fst (extract_text_from_pdf_traced b fname).

End Extraction.

(** ** The OCR confidence as the spec words it

    The mean, over the pages that yielded any text, of each page's average
    kept-word confidence, divided by 100; 0 when no page yielded text. *)

(** The [int(conf)] of the words a page keeps. *)
Definition kept_confidences (d : list (string * Q)) : list Z :=
  map (fun wc => py_int (snd wc)) (filter ocr_keep d).

Definition page_average (cs : list Z) : Q :=
  inject_Z (fold_right Z.add 0%Z cs) / inject_Z (Z.of_nat (length cs)).

Definition yields_text (d : list (string * Q)) : bool :=
  match filter ocr_keep d with [] => false | _ => true end.

Definition spec_ocr_confidence (datas : list (list (string * Q))) : Q :=
  let avgs := map (fun d => page_average (kept_confidences d))
                  (filter yields_text datas) in
  match avgs with
  | [] => 0
  | _ => fold_right Qplus 0 avgs / inject_Z (Z.of_nat (length avgs)) / 100
  end.

(** What the OCR loop reads: the first 10 pages, each rendered at zoom 2. *)
Definition ocr_input {page image : Type} (E : pdf_env page image) (b : bytes)
  : exn_or (list (list (string * Q))) :=
  match fitz_open E b with
  | inl e => inl e
  | inr doc => ocr_pages_data E (firstn 10 doc)
  end.

(** Two library environments that agree on everything the OCR fallback may
    read for [b]: the first 10 pages, their rendering at zoom 2, and the
    recognizer. *)
Definition same_ocr_view {page image : Type} (E1 E2 : pdf_env page image)
  (b : bytes) : Prop :=
  match fitz_open E1 b, fitz_open E2 b with
  | inl e1, inl e2 => e1 = e2
  | inr d1, inr d2 => firstn 10 d1 = firstn 10 d2
  | _, _ => False
  end /\
  (forall p, page_to_image E1 p 2 = page_to_image E2 p 2) /\
  (forall img, image_to_data E1 img = image_to_data E2 img).

(** The recognizer's contract: confidences on a 0-100 scale. *)
Definition confidences_at_most_100 {page image : Type} (E : pdf_env page image)
  : Prop :=
  forall img d wc, image_to_data E img = inr d -> In wc d -> snd wc <= 100.

(** ** The attribute extractor ([bedrock_client.py]) *)

(** JSON values as [json.loads] returns them; an object is a Python dict,
    kept as an association list in insertion order. *)
Inductive json :=
| JNull
| JBool (b : bool)
| JNum (q : Q)
| JStr (s : string)
| JArr (l : list json)
| JObj (kvs : list (string * json)).

(** [d[k] = v] on a dict: an existing key keeps its place, a new key goes
    last. *)
Fixpoint dict_set {V : Type} (k : string) (v : V) (kvs : list (string * V))
  : list (string * V) :=
  match kvs with
  | [] => [(k, v)]
  | (k', v') :: r => if String.eqb k k' then (k, v) :: r else (k', v') :: dict_set k v r
  end.

(** [d.get(k)] on a JSON object. *)
Fixpoint assoc_get {V : Type} (k : string) (kvs : list (string * V)) : option V :=
  match kvs with
  | [] => None
  | (k', v) :: r => if String.eqb k k' then Some v else assoc_get k r
  end.

Definition json_get (k : string) (j : json) : option json :=
  match j with JObj kvs => assoc_get k kvs | _ => None end.

(** One entry of [attributes_config]. *)
Record attribute_config := mk_attr {
  attr_name : string;
  attr_description : string;
  attr_data_type : string;
  attr_required : bool
}.

(** What [bedrock_client.invoke_model] and the reading of its body give:
    a [ClientError], any other exception (transport, body not JSON, no
    [content[0].text]), or the model's reply text. *)
Inductive invoke_outcome :=
| ClientError (msg : string)
| ServiceFailure (msg : string)
| Reply (t : string).

(** [json.loads] ([None] when it raises) and the model call on the system
    prompt and the user message. *)
Record bedrock_env := {
  json_loads : string -> option json;
  invoke_model : string -> string -> invoke_outcome
}.

(** Python's [str(True)] / [str(False)]. *)
Definition py_bool_str (b : bool) : string := if b then "True" else "False".

Definition attribute_line (a : attribute_config) : string :=
  "- " ++ attr_name a ++ ": " ++ attr_description a ++ " (Type: " ++
  attr_data_type a ++ ", Required: " ++ py_bool_str (attr_required a) ++ ")".

(** The fixed text of the prompt around the attribute list; of the scoring
    guidelines only the formula line is kept. *)
Definition prompt_head : string :=
  "You are a financial document analysis expert. Your task is to extract specific financial attributes from document text." ++ nl ++
  "Extract the following attributes:" ++ nl.

Definition prompt_tail : string :=
  nl ++ "OVERALL CONFIDENCE CALCULATION:" ++ nl ++
  "confidence = (text_clarity * 0.25) + (exact_match * 0.30) + (context_match * 0.25) + (format_validity * 0.20)" ++ nl.

Definition _build_extraction_system_prompt (cfg : list attribute_config) : string :=
  prompt_head ++ py_join nl (map attribute_line cfg) ++ prompt_tail.

(** [text[:8000]]. *)
Definition user_message (t : string) : string :=
  "Please analyze the following financial document text and extract the requested attributes." ++ nl ++
  "Financial Document Text:" ++ nl ++ substring 0 8000 t.

(** [str.find] and [str.rfind] of one character ([-1] when absent). *)
Fixpoint py_find (c : ascii) (s : string) : Z :=
  match s with
  | EmptyString => -1
  | String c' r => if Ascii.eqb c c' then 0 else
                     let i := py_find c r in if (i =? -1)%Z then -1 else i + 1
  end.

Fixpoint py_rfind (c : ascii) (s : string) : Z :=
  match s with
  | EmptyString => -1
  | String c' r =>
      let i := py_rfind c r in
      if (i =? -1)%Z then (if Ascii.eqb c c' then 0 else -1) else i + 1
  end.

(** [s[i:j]] for [0 <= i]. *)
Definition py_slice (s : string) (i j : Z) : string :=
  substring (Z.to_nat i) (Z.to_nat (j - i)) s.

Definition error_doc (msg : string) : json := JObj [("error", JStr msg)].

Section Bedrock.
Context (B : bedrock_env).

(** [_extract_json_from_text]: note [end_idx] is [rfind + 1], never [-1]. *)
Definition _extract_json_from_text (t : string) : json :=
  let start_idx := py_find "{" t in
  let end_idx := (py_rfind "}" t + 1)%Z in
  if negb (start_idx =? -1)%Z && negb (end_idx =? -1)%Z then
    match json_loads B (py_slice t start_idx end_idx) with
    | Some j => j
    | None => error_doc "Failed to parse response"
    end
  else error_doc "Failed to parse JSON response".

(** The placeholder entry of one attribute. *)
Definition empty_attribute : json :=
  JObj [("value", JNull); ("confidence", JNum 0); ("source_text", JStr "")].

(** [_get_empty_attributes_response]. *)
Definition _get_empty_attributes_response (cfg : list attribute_config) : json :=
  let empty_attributes :=
    fold_left (fun acc a => dict_set (attr_name a) empty_attribute acc) cfg [] in
  JObj [("extraction_metadata",
          JObj [("processing_date", JStr ""); ("confidence_score", JNum 0);
                ("extraction_method", JStr "bedrock_claude");
                ("error", JStr "Extraction failed")]);
        ("extracted_attributes", JObj empty_attributes)].

(** [extract_attributes]: both [except] clauses give the empty response. *)
Definition extract_attributes (t : string) (cfg : list attribute_config) : json :=
  let system_prompt := _build_extraction_system_prompt cfg in
  match invoke_model B system_prompt (user_message t) with
  | ClientError _ => _get_empty_attributes_response cfg
  | ServiceFailure _ => _get_empty_attributes_response cfg
  | Reply extracted_text =>
      match json_loads B extracted_text with
      | Some d => d
      | None => _extract_json_from_text extracted_text
      end
  end.

End Bedrock.

(** The confidence formula of the prompt, on an attribute entry. *)
Definition json_num (j : option json) : option Q :=
  match j with Some (JNum q) => Some q | _ => None end.

Definition weighted_confidence (av : json) : option Q :=
  match json_get "confidence_breakdown" av with
  | Some bd =>
      match json_num (json_get "text_clarity" bd), json_num (json_get "exact_match" bd),
            json_num (json_get "context_match" bd), json_num (json_get "format_validity" bd) with
      | Some tc, Some em, Some cm, Some fv =>
          Some ((25 # 100) * tc + (30 # 100) * em + (25 # 100) * cm + (20 # 100) * fv)
      | _, _, _, _ => None
      end
  | None => None
  end.

(** The attribute entries of an extraction document. *)
Definition attribute_values (doc : json) : list (string * json) :=
  match json_get "extracted_attributes" doc with
  | Some (JObj kvs) => kvs
  | _ => []
  end.

(** The spec's invariant on every attribute entry of a document: its
    confidence is the weighted sum of its breakdown, within 1e-6. *)
Definition formula_invariant (doc : json) : Prop :=
  forall name av c w,
    In (name, av) (attribute_values doc) ->
    json_num (json_get "confidence" av) = Some c ->
    weighted_confidence av = Some w ->
    Qabs (c - w) < 1 # 1000000.

(** ** The batch coordinator ([process_multiple_pdfs]) *)

(** [os.path.basename]: the text after the last [/]. *)
Fixpoint py_basename_acc (s acc : string) : string :=
  match s with
  | EmptyString => acc
  | String c r =>
      if Ascii.eqb c "/" then py_basename_acc r "" else py_basename_acc r (acc ++ String c "")
  end.

Definition py_basename (s : string) : string := py_basename_acc s "".

(** An entry of the returned list: an extraction result with its [key], or
    the failure dict [{filename, key, text, error, processing_time,
    confidence_score}]. *)
Inductive batch_entry :=
| Extracted (key : string) (r : extraction_result)
| Placeholder (filename key text error : string) (processing_time confidence_score : Q).

Definition placeholder (key err : string) : batch_entry :=
  Placeholder (py_basename key) key "" err 0 0.

(** The S3 download of a key, and how long the task of a key runs (in
    seconds) in its worker thread. *)
Record batch_env := {
  download_pdf : string -> exn_or bytes;
  run_time : string -> Z
}.

(** The [ThreadPoolExecutor(max_workers=3)] schedule: each task, in
    submission order, starts on the worker that frees first; the result is
    the completion time of each task. *)
Fixpoint list_min (m : Z) (l : list Z) : Z :=
  match l with [] => m | x :: r => list_min (Z.min m x) r end.

Fixpoint replace_first (x y : Z) (l : list Z) : list Z :=
  match l with
  | [] => []
  | z :: r => if (z =? x)%Z then y :: r else z :: replace_first x y r
  end.

Fixpoint completion_times (free : list Z) (ds : list Z) : list Z :=
  match ds, free with
  | [], _ => []
  | _, [] => []
  | d :: r, f :: fs =>
      let m := list_min f fs in
      (m + d)%Z :: completion_times (replace_first m (m + d) free) r
  end.

(** [future.result(timeout=300)] on each future in submission order: the
    wait starts at [now] and gives up at [now + 300]; a timed-out wait
    records [str(TimeoutError())], the empty string. *)
Fixpoint collect_results (now : Z) (items : list (string * batch_entry * Z))
  : list batch_entry :=
  match items with
  | [] => []
  | (key, res, done) :: r =>
      if (done <=? now + 300)%Z then res :: collect_results (Z.max now done) r
      else placeholder key "" :: collect_results (now + 300) r
  end.

Section Batch.
Context {page image : Type} (E : pdf_env page image) (BE : batch_env).

(** [_process_single_pdf]: a failed download becomes the failure dict;
    [extract_text_from_pdf] does not raise. *)
Definition _process_single_pdf (key : string) : batch_entry :=
  match download_pdf BE key with
  | inl e => placeholder key e
  | inr pdf_bytes => Extracted key (extract_text_from_pdf E pdf_bytes (py_basename key))
  end.

Definition process_multiple_pdfs (pdf_keys : list string) : list batch_entry :=
  let dones := completion_times [0; 0; 0]%Z (map (run_time BE) pdf_keys) in
  collect_results 0
    (combine (combine pdf_keys (map _process_single_pdf pdf_keys)) dones).

End Batch.

(** ** The UI confidence band ([app.py], line 193) *)

Inductive band := Green | Yellow | Red.

(** [confidence_color = "green" if confidence > 0.8 else "yellow" if
    confidence > 0.5 else "red"]. *)
Definition confidence_color (confidence : Q) : band :=
  if negb (Qle_bool confidence (4 # 5)) then Green
  else if negb (Qle_bool confidence (1 # 2)) then Yellow
  else Red.

(** The banding as the spec words it: high from 0.8, medium from 0.6. *)
Inductive quality := High | Medium | Low.

Definition spec_quality_band (avg : Q) : quality :=
  if Qle_bool (4 # 5) avg then High else if Qle_bool (3 # 5) avg then Medium else Low.

Definition band_quality (b : band) : quality :=
  match b with Green => High | Yellow => Medium | Red => Low end.

(** The bands of the UI's "Quality Indicators" legend ([app.py], lines
    235-238): High 80-100%, Medium 50-79%, Low 0-49%. *)
Definition legend_quality (c : Q) : quality :=
  if Qle_bool (4 # 5) c then High else if Qle_bool (1 # 2) c then Medium else Low.

(** ** Year-over-year analysis ([excel_generator.py]) *)

(** numpy's float64 is IEEE binary64: SpecFloat's specification of the
    format with 53 bits of precision and exponent bound 1024, and its
    round-to-nearest-even operations. *)
Definition f64 : Type := SpecFloat.spec_float.








(** A cell of the consolidated frame: missing, a number or a text.  A
    measure column with a missing value, or with any float, is a float64
    column; numbers are its doubles (NaN among them, from a JSON [NaN]),
    Python ints are converted by [float(n)]. *)
Inductive cell := CNone | CNum (x : f64) | CText (s : string).

(** One consolidated row: the attribute values of one document, keyed by
    attribute name.  The base columns and the [_Confidence] columns never
    enter the year-over-year sheet and are left out. *)
Definition row := list (string * cell).
Definition frame := list row.



Definition has_column (df : frame) (column : string) : bool :=
  existsb (fun r => existsb (fun kv => String.eqb (fst kv) column) r) df.



















(** Python's [int(str)]: surrounding whitespace, an optional sign, decimal
    digits with single underscores between them. *)
Definition digit_val (c : ascii) : option Z :=
  let n := nat_of_ascii c in
  if (48 <=? n)%nat && (n <=? 57)%nat then Some (Z.of_nat (n - 48)) else None.













(** ** S3 access ([pdf_processor.py]: [list_pdfs_from_s3], [download_pdf]) *)

(** What one boto3 call gives: its response, a [ClientError], or any other
    exception. *)
Inductive s3_outcome (A : Type) :=
| S3Ok (a : A)
| S3ClientError (msg : string)
| S3OtherError (msg : string).

Arguments S3Ok {A}.
Arguments S3ClientError {A}.
Arguments S3OtherError {A}.

(** One entry of [response['Contents']]: [Key], [Size] and [LastModified]
    (a timestamp; datetimes compare as their timestamps). *)
Record s3_object := mk_s3_object {
  obj_Key : string;
  obj_Size : Z;
  obj_LastModified : Z
}.

(** The S3 client: [list_objects_v2(Bucket, Prefix)] gives
    [response['Contents']] ([None] when the response has no ['Contents']);
    [head_object] gives [response['ContentLength']]; [get_object] gives
    [response['Body'].read()]. *)
Record s3_env := {
  list_objects_v2 : string -> string -> s3_outcome (option (list s3_object));
  head_object : string -> string -> s3_outcome Z;
  get_object : string -> string -> s3_outcome bytes
}.

(** [get_s3_config()]; an unset setting is [None], falsy like [""], and is
    written [""]. *)
Record s3_config := mk_s3_config {
  use_single_bucket : bool;
  bucket_name : string;
  input_folder : string;
  input_bucket : string
}.

(** The dictionary built for each listed PDF. *)
Record pdf_info := mk_pdf_info {
  info_key : string;
  info_filename : string;
  info_size : Z;
  info_last_modified : Z;
  info_size_mb : Q;
  info_bucket : string
}.

(** [str.lower()] on ASCII. *)
Definition ascii_lower (c : ascii) : ascii :=
  let n := nat_of_ascii c in
  if (65 <=? n)%nat && (n <=? 90)%nat then ascii_of_nat (n + 32) else c.

Fixpoint py_lower (s : string) : string :=
  match s with
  | EmptyString => EmptyString
  | String c r => String (ascii_lower c) (py_lower r)
  end.

(** [s.endswith(suffix)]. *)
Definition py_endswith (suffix s : string) : bool :=
  (String.length suffix <=? String.length s)%nat &&
  String.eqb (substring (String.length s - String.length suffix) (String.length suffix) s) suffix.

(** [s.replace(old, new)] for a non-empty [old]: every occurrence, scanned
    left to right without overlap, is replaced.  Each step consumes a
    character, so [length s] steps suffice. *)
Fixpoint replace_fuel (fuel : nat) (old new s : string) : string :=
  match fuel with
  | O => s
  | S f =>
      match s with
      | EmptyString => EmptyString
      | String c r =>
          if String.prefix old s
          then new ++ replace_fuel f old new
                        (substring (String.length old) (String.length s - String.length old) s)
          else String c (replace_fuel f old new r)
      end
  end.

Definition py_replace (old new s : string) : string :=
  replace_fuel (String.length s) old new s.

(** [sorted(pdf_files, key=lambda x: x['last_modified'], reverse=True)]: a
    stable sort, newest first; entries with equal timestamps keep their
    listing order.  Insertion places an entry after every entry at least as
    new. *)
Fixpoint insert_newest_first (x : pdf_info) (l : list pdf_info) : list pdf_info :=
  match l with
  | [] => [x]
  | y :: r =>
      if (info_last_modified x <=? info_last_modified y)%Z
      then y :: insert_newest_first x r
      else x :: l
  end.

Definition sort_newest_first (l : list pdf_info) : list pdf_info :=
  fold_left (fun acc x => insert_newest_first x acc) l [].

(** The bucket and prefix chosen from the configuration. *)
Definition listing_location (cfg : s3_config) (bucket_name_arg : string) : string * string :=
  if use_single_bucket cfg then (bucket_name cfg, input_folder cfg ++ "/")
  else (if py_truthy bucket_name_arg then bucket_name_arg else input_bucket cfg, "").

(** [key.lower().endswith('.pdf') and key != prefix]. *)
Definition is_listed_pdf (prefix : string) (o : s3_object) : bool :=
  py_endswith ".pdf" (py_lower (obj_Key o)) && negb (String.eqb (obj_Key o) prefix).

Section S3.
Context (S : s3_env) (cfg : s3_config).

(** [round(size / (1024 * 1024), 2)] and the [:.2f] formatting of a float:
    Python's float rounding and printing are not modelled. *)
Context (py_round2 : Q -> Q) (format_2f : Q -> string).

Definition pdf_info_of (bucket prefix : string) (o : s3_object) : pdf_info :=
  mk_pdf_info (obj_Key o)
    (if py_truthy prefix then py_replace prefix "" (obj_Key o) else py_basename (obj_Key o))
    (obj_Size o) (obj_LastModified o)
    (py_round2 (inject_Z (obj_Size o) / inject_Z (1024 * 1024))) bucket.

(** [list_pdfs_from_s3]: the [ClientError] clause re-raises with the bucket
    name, the generic clause re-raises unchanged. *)
Definition list_pdfs_from_s3 (bucket_name_arg : string) : exn_or (list pdf_info) :=
  let '(bucket, prefix) := listing_location cfg bucket_name_arg in
  if negb (py_truthy bucket) then inl "No S3 bucket configured for input"
  else
    match list_objects_v2 S bucket prefix with
    | S3ClientError _ => inl ("Failed to access S3 bucket: " ++ bucket)
    | S3OtherError e => inl e
    | S3Ok None => inr []
    | S3Ok (Some contents) =>
        inr (sort_newest_first
               (map (pdf_info_of bucket prefix) (filter (is_listed_pdf prefix) contents)))
    end.

(** [self.max_file_size]. *)
Definition max_file_size : Z := 100 * 1024 * 1024.

(** The S3 calls [download_pdf] makes, in order. *)
Inductive s3_call := HeadObject | GetObject.

(** [download_pdf], with the calls it makes. *)
Definition download_pdf_traced (bucket key : string) : exn_or bytes * list s3_call :=
  match head_object S bucket key with
  | S3ClientError _ => (inl ("Failed to download PDF: " ++ key), [HeadObject])
  | S3OtherError e => (inl e, [HeadObject])
  | S3Ok file_size =>
      if (max_file_size <? file_size)%Z then
        (inl ("File too large: " ++ format_2f (inject_Z file_size / inject_Z (1024 * 1024)) ++
              "MB (max: 100.0MB)"), [HeadObject])
      else
        match get_object S bucket key with
        | S3ClientError _ => (inl ("Failed to download PDF: " ++ key), [HeadObject; GetObject])
        | S3OtherError e => (inl e, [HeadObject; GetObject])
        | S3Ok body => (inr body, [HeadObject; GetObject])
        end
  end.

Definition download_pdf_s3 (bucket key : string) : exn_or bytes :=
  fst (download_pdf_traced bucket key).

End S3.

(** ** Python values ([bot_interface.py], [bedrock_client.py], [app.py],
    [excel_generator.py]) *)

(** The values held by the result dictionaries and the chatbot context:
    dictionary keys are strings, in insertion order.  A float is modelled
    by its value as an exact rational: there is no NaN or infinity among
    [PFloat] values and [py_sum] does not round, so the theorems over
    [pyval] hold for finite floats and exact arithmetic. *)
Inductive pyval :=
| PNone
| PBool (b : bool)
| PInt (z : Z)
| PFloat (q : Q)
| PStr (s : string)
| PList (l : list pyval)
| PDict (kvs : list (string * pyval)).

(** Truthiness: [if v:] and [not v]. *)
Definition py_bool (v : pyval) : bool :=
  match v with
  | PNone => false
  | PBool b => b
  | PInt z => negb (z =? 0)%Z
  | PFloat q => negb (Qeq_bool q 0)
  | PStr s => py_truthy s
  | PList l => match l with [] => false | _ => true end
  | PDict kvs => match kvs with [] => false | _ => true end
  end.

Definition is_none (v : pyval) : bool :=
  match v with PNone => true | _ => false end.

(** The exception monad: an exception is named by its class. *)
Definition bind_exn {A B : Type} (m : exn_or A) (f : A -> exn_or B) : exn_or B :=
  match m with inl e => inl e | inr a => f a end.

Notation "x <- m ;; k" := (bind_exn m (fun x => k))
  (at level 61, m at next level, right associativity).

(** [k in s] on strings: [k] is a substring of [s]. *)
Fixpoint str_contains (k s : string) : bool :=
  String.prefix k s || match s with EmptyString => false | String _ r => str_contains k r end.

(** [k in v] for a string [k]: a dict tests its keys, a list its elements, a
    string its substrings; other values are not iterable. *)
Definition py_in (k : string) (v : pyval) : exn_or bool :=
  match v with
  | PDict kvs => inr (existsb (fun kv => String.eqb (fst kv) k) kvs)
  | PList l => inr (existsb (fun x => match x with PStr s => String.eqb s k | _ => false end) l)
  | PStr s => inr (str_contains k s)
  | _ => inl "TypeError"
  end.

(** [v[k]] for a string [k]. *)
Definition py_getitem (v : pyval) (k : string) : exn_or pyval :=
  match v with
  | PDict kvs => match assoc_get k kvs with Some x => inr x | None => inl "KeyError" end
  | _ => inl "TypeError"
  end.

(** [v.get(k, d)]: only dicts have [get]. *)
Definition py_get (v : pyval) (k : string) (d : pyval) : exn_or pyval :=
  match v with
  | PDict kvs => inr (match assoc_get k kvs with Some x => x | None => d end)
  | _ => inl "AttributeError"
  end.

(** [len(v)]. *)
Definition py_len (v : pyval) : exn_or Z :=
  match v with
  | PList l => inr (Z.of_nat (length l))
  | PDict kvs => inr (Z.of_nat (length kvs))
  | PStr s => inr (Z.of_nat (String.length s))
  | _ => inl "TypeError"
  end.

(** The numbers of Python: bools count as ints. *)
Definition py_num (v : pyval) : option Q :=
  match v with
  | PBool b => Some (if b then 1 else 0)
  | PInt z => Some (inject_Z z)
  | PFloat q => Some q
  | _ => None
  end.

(** A number in an arithmetic or ordering expression with a float. *)
Definition py_number (v : pyval) : exn_or Q :=
  match py_num v with Some q => inr q | None => inl "TypeError" end.

(** [sum(vs)]: [0 + v1 + v2 + ...]. *)
Fixpoint py_sum (vs : list pyval) : exn_or Q :=
  match vs with
  | [] => inr 0
  | v :: r => q <- py_number v ;; s <- py_sum r ;; inr (q + s)
  end.

(** [sep.join(v)]: the elements of a list (strings only), the characters of
    a string, the keys of a dict. *)
Definition py_join_value (sep : string) (v : pyval) : exn_or string :=
  match v with
  | PList l =>
      let fix strs (l : list pyval) : exn_or (list string) :=
        match l with
        | [] => inr []
        | PStr s :: r => ss <- strs r ;; inr (s :: ss)
        | _ :: _ => inl "TypeError"
        end in
      ss <- strs l ;; inr (py_join sep ss)
  | PStr s => inr (py_join sep (map (fun c => String c EmptyString) (list_ascii_of_string s)))
  | PDict kvs => inr (py_join sep (map fst kvs))
  | _ => inl "TypeError"
  end.

(** [str(n)] of an int. *)
Fixpoint digits_fuel (fuel : nat) (z : Z) (acc : string) : string :=
  match fuel with
  | O => acc
  | S f =>
      let acc' := String (ascii_of_nat (48 + Z.to_nat (z mod 10))) acc in
      if (z / 10 =? 0)%Z then acc' else digits_fuel f (z / 10) acc'
  end.

Definition py_str_int (z : Z) : string :=
  if (z <? 0)%Z then String "-" (digits_fuel (S (Z.to_nat (Z.log2 (- z)))) (- z) "")
  else digits_fuel (S (Z.to_nat (Z.log2 z))) z "".

(** [str(year).isdigit()] and then [int(year)]: a non-negative int, or a
    non-empty string of ASCII digits; bools print as [True]/[False] and
    floats always with a dot, an exponent, [inf] or [nan]. *)
Fixpoint digits_only (l : list ascii) (acc : Z) : option Z :=
  match l with
  | [] => Some acc
  | c :: t => match digit_val c with Some d => digits_only t (acc * 10 + d)%Z | None => None end
  end.

Definition year_int (v : pyval) : option Z :=
  match v with
  | PInt z => if (0 <=? z)%Z then Some z else None
  | PStr s =>
      match list_ascii_of_string s with
      | [] => None
      | l => digits_only l 0
      end
  | _ => None
  end.

(** ** The chatbot ([bedrock_client.py]: [_prepare_context_summary],
    [chatbot_response]) *)

(** A line of a triple-quoted literal indented by twelve spaces. *)
Definition indent12 : string := "            ".

Definition triple_quoted (lines : list string) : string :=
  nl ++ String.concat "" (map (fun l => indent12 ++ l ++ nl) lines) ++ indent12.

Definition chatbot_system_prompt : string :=
  triple_quoted [
    "You are a financial analysis assistant with access to extracted financial data from PDF documents.";
    "Help users understand and analyze the financial information by:";
    "1. Answering questions about specific financial metrics";
    "2. Providing insights on trends and patterns";
    "3. Explaining financial ratios and their implications";
    "4. Comparing data across different periods";
    "5. Identifying potential areas of concern or opportunity";
    "";
    "Always base your responses on the provided data and be clear about any limitations.";
    "Be concise but informative in your responses."].

Definition chatbot_user_message (context_summary user_input : string) : string :=
  triple_quoted [
    "Context Data:"; context_summary; "";
    "User Question/Observation:"; user_input; "";
    "Please provide a helpful response based on the available financial data."].

Definition chatbot_apology : string :=
  "I apologize, but I'm having trouble processing your request right now. Please try again later.".

Section Chatbot.
Context (B : bedrock_env).

(** [str(v)] of a value in an f-string: Python's printing of floats and
    containers is not modelled. *)
Context (py_str : pyval -> string).

(** The loop over [attrs.items()]: [attr_data.get('value')] needs a dict. *)
Fixpoint metric_lines (kvs : list (string * pyval)) : exn_or (list string) :=
  match kvs with
  | [] => inr []
  | (attr_name, attr_data) :: r =>
      v <- py_get attr_data "value" PNone ;;
      rest <- metric_lines r ;;
      inr (if negb (is_none v) then ("- " ++ attr_name ++ ": " ++ py_str v) :: rest else rest)
  end.

Definition _prepare_context_summary (context_data : pyval) : exn_or string :=
  if negb (py_bool context_data) then inr "No financial data available."
  else
    b <- py_in "consolidated_data" context_data ;;
    summary_parts <-
      (if b then
         data <- py_getitem context_data "consolidated_data" ;;
         n <- py_len data ;;
         let head := "Available data from " ++ py_str_int n ++ " PDF documents" in
         if py_bool data then
           sample <- (match data with
                      | PList l => match l with x :: _ => inr x | [] => inl "IndexError" end
                      | _ => inr data
                      end) ;;
           b' <- py_in "extracted_attributes" sample ;;
           if b' then
             attrs <- py_getitem sample "extracted_attributes" ;;
             lines <- (match attrs with PDict kvs => metric_lines kvs | _ => inl "AttributeError" end) ;;
             inr (head :: "Key metrics include:" :: lines)
           else inr [head]
         else inr [head]
       else inr []) ;;
    inr (match summary_parts with
         | [] => "Financial data is available for analysis."
         | _ => py_join nl summary_parts
         end).

(** [chatbot_response], with whether the model was called: every exception
    gives the apology. *)
Definition chatbot_response_traced (user_input : string) (context_data : pyval) : string * bool :=
  match _prepare_context_summary context_data with
  | inl _ => (chatbot_apology, false)
  | inr context_summary =>
      match invoke_model B chatbot_system_prompt (chatbot_user_message context_summary user_input) with
      | Reply t => (t, true)
      | ClientError _ => (chatbot_apology, true)
      | ServiceFailure _ => (chatbot_apology, true)
      end
  end.

Definition chatbot_response (user_input : string) (context_data : pyval) : string :=
  fst (chatbot_response_traced user_input context_data).

End Chatbot.

(** ** The chatbot interface ([bot_interface.py]) *)

(** [_get_context_summary]: [{"status": "No data available"}] without
    context; otherwise the pdf count, the date range, the available metrics,
    and whether ["error"] was set by the [except] clause. *)
Inductive context_summary :=
| NoDataSummary
| DataSummary (pdf_count : Z) (date_range : string)
    (key_metrics_available : list string) (error : bool).

Definition common_metrics : list string :=
  ["Total Revenue"; "Net Income"; "Total Assets"; "Total Liabilities";
   "Shareholders Equity"; "Operating Cash Flow"; "Gross Profit"].

(** The pdf count step: a list counts its items, a dict counts one. *)
Definition summary_pdf_count (context_data : pyval) : exn_or Z :=
  b <- py_in "consolidated_data" context_data ;;
  if b then
    consolidated <- py_getitem context_data "consolidated_data" ;;
    inr (match consolidated with
         | PList l => Z.of_nat (length l)
         | PDict _ => 1%Z
         | _ => 0%Z
         end)
  else inr 0%Z.

(** The two branches of the metric test: a dict with a non-[None] value, or
    any value that is not [None]. *)
Definition metric_present (attr_data : pyval) : bool :=
  match attr_data with
  | PDict kvs =>
      if negb (is_none (match assoc_get "value" kvs with Some v => v | None => PNone end))
      then true
      else negb (is_none attr_data)
  | _ => negb (is_none attr_data)
  end.

Fixpoint metrics_loop (attrs : pyval) (metrics : list string) : exn_or (list string) :=
  match metrics with
  | [] => inr []
  | metric :: r =>
      b <- py_in metric attrs ;;
      if b then
        attr_data <- py_getitem attrs metric ;;
        rest <- metrics_loop attrs r ;;
        inr (if metric_present attr_data then metric :: rest else rest)
      else metrics_loop attrs r
  end.

(** The metrics step, on the first document only. *)
Definition summary_metrics (context_data : pyval) : exn_or (list string) :=
  b <- py_in "consolidated_data" context_data ;;
  if b then
    data <- py_getitem context_data "consolidated_data" ;;
    match data with
    | PList (sample_data :: _) =>
        b' <- py_in "extracted_attributes" sample_data ;;
        if b' then
          attrs <- py_getitem sample_data "extracted_attributes" ;;
          metrics_loop attrs common_metrics
        else inr []
    | _ => inr []
    end
  else inr [].

(** The year of one document, when [year and str(year).isdigit()]. *)
Definition item_year (item : pyval) : exn_or (option Z) :=
  b <- py_in "extracted_attributes" item ;;
  if b then
    attrs <- py_getitem item "extracted_attributes" ;;
    year_data <- py_get attrs "Report Year" PNone ;;
    let year := match year_data with
                | PDict kvs => match assoc_get "value" kvs with Some v => v | None => PNone end
                | _ => year_data
                end in
    inr (if py_bool year then year_int year else None)
  else inr None.

Fixpoint years_loop (items : list pyval) : exn_or (list Z) :=
  match items with
  | [] => inr []
  | item :: r =>
      y <- item_year item ;;
      ys <- years_loop r ;;
      inr (match y with Some v => v :: ys | None => ys end)
  end.

Definition summary_years (context_data : pyval) : exn_or (list Z) :=
  b <- py_in "consolidated_data" context_data ;;
  if b then
    data <- py_getitem context_data "consolidated_data" ;;
    match data with PList items => years_loop items | _ => inr [] end
  else inr [].

(** [f"{min(years)} - {max(years)}" if len(set(years)) > 1 else str(years[0])]. *)
Definition date_range_of (years : list Z) : string :=
  match years with
  | [] => "Unknown"
  | y :: r =>
      let lo := fold_left Z.min r y in
      let hi := fold_left Z.max r y in
      if (lo <? hi)%Z then py_str_int lo ++ " - " ++ py_str_int hi else py_str_int y
  end.

(** [_get_context_summary]: an exception keeps what was assigned before it. *)
Definition _get_context_summary (context_data : pyval) : context_summary :=
  if negb (py_bool context_data) then NoDataSummary
  else
    match summary_pdf_count context_data with
    | inl _ => DataSummary 0 "Unknown" [] true
    | inr n =>
        match summary_metrics context_data with
        | inl _ => DataSummary n "Unknown" [] true
        | inr metrics =>
            match summary_years context_data with
            | inl _ => DataSummary n "Unknown" metrics true
            | inr years => DataSummary n (date_range_of years) metrics false
            end
        end
    end.

Definition basic_questions : list string :=
  ["What is the total revenue across all periods?";
   "Show me the net income trends.";
   "What are the key financial ratios?"].

Definition multi_period_questions : list string :=
  ["Compare revenue growth year over year.";
   "What are the biggest changes in financial position?";
   "Analyze the profitability trends."].

Definition in_list (x : string) (l : list string) : bool := existsb (String.eqb x) l.

(** [_get_suggested_questions]. *)
Definition _get_suggested_questions (context_data : pyval) : list string :=
  if negb (py_bool context_data) then
    ["Please extract data from PDFs first to get started.";
     "Upload PDFs and run extraction to begin analysis."]
  else
    let '(pdf_count, available_metrics) :=
      match _get_context_summary context_data with
      | NoDataSummary => (0%Z, [])
      | DataSummary n _ ms _ => (n, ms)
      end in
    let suggestions :=
      ((if (0 <? pdf_count)%Z then basic_questions else []) ++
       (if (1 <? pdf_count)%Z then multi_period_questions else []) ++
       (if in_list "Total Assets" available_metrics && in_list "Total Liabilities" available_metrics
        then ["Calculate the debt-to-equity ratio."] else []) ++
       (if in_list "Total Revenue" available_metrics && in_list "Net Income" available_metrics
        then ["What is the profit margin?"] else []) ++
       (if in_list "Operating Cash Flow" available_metrics
        then ["How is the cash flow performance?"] else []))%list in
    firstn 5 suggestions.

(** The dictionary of [_check_data_availability]; [availability_error] is
    whether ["error"] was set (its text, [str(e)], is not modelled). *)
Record availability := mk_availability {
  has_revenue_data : bool;
  has_profitability_data : bool;
  has_balance_sheet_data : bool;
  has_cash_flow_data : bool;
  has_multi_period_data : bool;
  data_quality : string;
  availability_error : bool
}.

Definition default_availability : availability :=
  mk_availability false false false false false "unknown" false.

(** The attribute names and the collected confidences of one item. *)
Definition item_attributes (item : pyval) : exn_or (list string * list pyval) :=
  b <- py_in "extracted_attributes" item ;;
  if b then
    attributes <- py_getitem item "extracted_attributes" ;;
    match attributes with
    | PDict kvs =>
        inr (map fst kvs,
             flat_map (fun kv => match snd kv with
                                 | PDict d => match assoc_get "confidence" d with
                                              | Some c => [c]
                                              | None => []
                                              end
                                 | _ => []
                                 end) kvs)
    | _ => inl "AttributeError"
    end
  else inr ([], []).

Fixpoint items_attributes (items : list pyval) : exn_or (list string * list pyval) :=
  match items with
  | [] => inr ([], [])
  | item :: r =>
      a <- item_attributes item ;;
      rest <- items_attributes r ;;
      inr ((fst a ++ fst rest)%list, (snd a ++ snd rest)%list)
  end.

Definition any_indicator (indicators all_attributes : list string) : bool :=
  existsb (fun i => in_list i all_attributes) indicators.

Definition quality_of (avg_confidence : Q) : string :=
  if Qle_bool (4 # 5) avg_confidence then "high"
  else if Qle_bool (3 # 5) avg_confidence then "medium"
  else "low".

(** [_check_data_availability]. *)
Definition _check_data_availability (context_data : pyval) : availability :=
  if negb (py_bool context_data) then default_availability
  else
    match py_get context_data "consolidated_data" (PList []) with
    | inl _ => mk_availability false false false false false "unknown" true
    | inr cd =>
        let consolidated_data :=
          match cd with PList l => l | _ => if py_bool cd then [cd] else [] end in
        match consolidated_data with
        | [] => default_availability
        | _ =>
            let multi := (1 <? length consolidated_data)%nat in
            match items_attributes consolidated_data with
            | inl _ => mk_availability false false false false multi "unknown" true
            | inr (all_attributes, confidence_scores) =>
                let rev_ := any_indicator ["Total Revenue"; "Gross Profit"; "Revenue"] all_attributes in
                let prof := any_indicator ["Net Income"; "EBITDA"; "Operating Income"] all_attributes in
                let bal := any_indicator ["Total Assets"; "Total Liabilities"; "Shareholders Equity"] all_attributes in
                let cash := any_indicator ["Operating Cash Flow"; "Free Cash Flow"; "Cash Flow"] all_attributes in
                match confidence_scores with
                | [] => mk_availability rev_ prof bal cash multi "unknown" false
                | _ =>
                    match py_sum confidence_scores with
                    | inl _ => mk_availability rev_ prof bal cash multi "unknown" true
                    | inr s =>
                        mk_availability rev_ prof bal cash multi
                          (quality_of (s / inject_Z (Z.of_nat (length confidence_scores)))) false
                    end
                end
            end
        end
    end.

(** The interface's state: [conversation_history] as
    [(user_input, bot_response)] pairs (the timestamps are not modelled) and
    [context_data]. *)
Record bot_state := mk_bot_state {
  conversation_history : list (string * string);
  context_data : pyval
}.

Definition max_history_length : nat := 10.

(** The dictionary [handle_user_input] returns. *)
Inductive bot_reply :=
| Refused (response error : string)
| Answered (response : string) (summary : context_summary)
    (suggested_questions : list string) (data_availability : availability).

Section Bot.
Context (B : bedrock_env) (py_str : pyval -> string).

(** [handle_user_input]; none of the calls it makes raises, so its [except]
    clause is never reached. *)
Definition handle_user_input (st : bot_state) (user_input : string) : bot_reply * bot_state :=
  if negb (py_truthy user_input) || negb (py_truthy (py_strip user_input)) then
    (Refused "Please provide a question or observation about the financial data." "Empty input", st)
  else if negb (py_bool (context_data st)) then
    (Refused "I don't have any financial data to analyze yet. Please extract data from PDFs first."
       "No context data", st)
  else
    let response := chatbot_response B py_str user_input (context_data st) in
    let h := (conversation_history st ++ [(user_input, response)])%list in
    let h' := if (max_history_length <? length h)%nat
              then skipn (length h - max_history_length) h else h in
    (Answered response (_get_context_summary (context_data st))
       (_get_suggested_questions (context_data st))
       (_check_data_availability (context_data st)),
     mk_bot_state h' (context_data st)).

End Bot.

Definition set_context_data (st : bot_state) (extracted_data : pyval) : bot_state :=
  mk_bot_state (conversation_history st) extracted_data.

Definition clear_conversation_history (st : bot_state) : bot_state :=
  mk_bot_state [] (context_data st).

(** ** From the batch to the reports ([app.py], [excel_generator.py]) *)

(** The dictionary of a batch entry: the result of [extract_text_from_pdf]
    with its ['key'] added last, or the failure dict of
    [_process_single_pdf] / [process_multiple_pdfs], whose
    [processing_time] is the int literal [0]. *)
Definition result_dict (key : string) (r : extraction_result) : list (string * pyval) :=
  [("filename", PStr (filename r)); ("text", PStr (text r));
   ("page_count", PInt (Z.of_nat (page_count r)));
   ("extraction_method", PStr (extraction_method r));
   ("processing_time", PFloat (processing_time r));
   ("has_text", PBool (has_text r)); ("has_images", PBool (has_images r));
   ("confidence_score", PFloat (confidence_score r));
   ("errors", PList (map PStr (errors r))); ("key", PStr key)].

Definition batch_entry_dict (b : batch_entry) : list (string * pyval) :=
  match b with
  | Extracted key r => result_dict key r
  | Placeholder fname key t err pt cs =>
      [("filename", PStr fname); ("key", PStr key); ("text", PStr t);
       ("error", PStr err); ("processing_time", PInt (py_int pt));
       ("confidence_score", PFloat cs)]
  end.

Definition batch_entry_text (b : batch_entry) : string :=
  match b with Extracted _ r => text r | Placeholder _ _ t _ _ _ => t end.

Section App.
Context (B : bedrock_env).

(** The Python value [json.loads] built for a JSON document. *)
Context (to_py : json -> pyval).

(** The loop body of the extract button ([app.py], lines 153-168): a result
    without text gets empty attributes and a zero confidence without calling
    Bedrock; [attributes.get(...)] needs [extract_attributes] to return an
    object. *)
Definition app_attach_attributes (cfg : list attribute_config) (b : batch_entry)
  : exn_or pyval :=
  let pdf_result := batch_entry_dict b in
  let t := batch_entry_text b in
  if negb (py_truthy t) then
    let extraction_method :=
      match assoc_get "extraction_method" pdf_result with Some v => v | None => PStr "none" end in
    inr (PDict (dict_set "extraction_metadata"
                  (PDict [("processing_date", PStr ""); ("confidence_score", PFloat 0);
                          ("extraction_method", extraction_method)])
                  (dict_set "extracted_attributes" (PDict []) pdf_result)))
  else
    match extract_attributes B t cfg with
    | JObj kvs =>
        let get k := match assoc_get k kvs with Some j => to_py j | None => PDict [] end in
        inr (PDict (dict_set "extraction_metadata" (get "extraction_metadata")
                      (dict_set "extracted_attributes" (get "extracted_attributes") pdf_result)))
    | _ => inl "AttributeError"
    end.

Fixpoint app_extracted_results (cfg : list attribute_config) (bs : list batch_entry)
  : exn_or (list pyval) :=
  match bs with
  | [] => inr []
  | b :: r => d <- app_attach_attributes cfg b ;; ds <- app_extracted_results cfg r ;; inr (d :: ds)
  end.

End App.

(** [pdf_data.get('extraction_metadata', {}).get(k, d)]. *)
Definition metadata_get (pdf_data : pyval) (k : string) (d : pyval) : exn_or pyval :=
  md <- py_get pdf_data "extraction_metadata" (PDict []) ;; py_get md k d.

Fixpoint exn_map {A B : Type} (f : A -> exn_or B) (l : list A) : exn_or (list B) :=
  match l with
  | [] => inr []
  | x :: r => y <- f x ;; ys <- exn_map f r ;; inr (y :: ys)
  end.

(** One row of [_create_individual_pdf_sheets]. *)
Definition individual_row (pdf_data : pyval) : exn_or (list pyval) :=
  fname <- py_get pdf_data "filename" (PStr "Unknown") ;;
  pdate <- metadata_get pdf_data "processing_date" (PStr "") ;;
  pc <- py_get pdf_data "page_count" (PInt 0) ;;
  em <- py_get pdf_data "extraction_method" (PStr "") ;;
  pt <- py_get pdf_data "processing_time" (PInt 0) ;;
  conf <- metadata_get pdf_data "confidence_score" (PInt 0) ;;
  ht <- py_get pdf_data "has_text" (PBool false) ;;
  errs <- py_get pdf_data "errors" (PList []) ;;
  joined <- py_join_value "; " errs ;;
  inr [fname; pdate; pc; em; pt; conf; PStr (if py_bool ht then "Yes" else "No"); PStr joined].

(** The rows of the ['Individual PDF Details'] sheet, from row 5 down. *)
Definition _create_individual_pdf_sheets (json_data_list : list pyval)
  : exn_or (list (list pyval)) :=
  exn_map individual_row json_data_list.

(** [confidence > 0.5] in the count of successful extractions. *)
Definition pdf_successful (pdf_data : pyval) : exn_or bool :=
  c <- metadata_get pdf_data "confidence_score" (PInt 0) ;;
  q <- py_number c ;;
  inr (negb (Qle_bool q (1 # 2))).

(** The issues of one PDF in the per-PDF quality table. *)
Definition quality_issues (pdf_data : pyval) : exn_or (list string) :=
  c <- metadata_get pdf_data "confidence_score" (PInt 0) ;;
  q <- py_number c ;;
  errs <- py_get pdf_data "errors" PNone ;;
  ht <- py_get pdf_data "has_text" (PBool false) ;;
  inr ((if negb (Qle_bool (1 # 2) q) then ["Low confidence"] else []) ++
       (if py_bool errs then ["Processing errors"] else []) ++
       (if negb (py_bool ht) then ["No text detected"] else []))%list.

(** One row of the per-PDF quality table. *)
Definition detail_row (pdf_data : pyval) : exn_or (list pyval) :=
  conf <- metadata_get pdf_data "confidence_score" (PInt 0) ;;
  calc <- metadata_get pdf_data "confidence_calculation" (PDict []) ;;
  issues <- quality_issues pdf_data ;;
  fname <- py_get pdf_data "filename" (PStr "Unknown") ;;
  tc <- py_get calc "text_clarity" (PInt 0) ;;
  am <- py_get calc "attribute_match" (PInt 0) ;;
  cr <- py_get calc "context_relevance" (PInt 0) ;;
  dc <- py_get calc "data_consistency" (PInt 0) ;;
  em <- py_get pdf_data "extraction_method" (PStr "") ;;
  inr [fname; conf; tc; am; cr; dc; em;
       PStr (match issues with [] => "None" | _ => py_join "; " issues end)].

(** [attribute_confidence]: for each attribute name, in first-seen order,
    the [(confidence, breakdown)] of its dict entries. *)
Fixpoint add_attribute (name : string) (entry : option (pyval * pyval))
  (acc : list (string * list (pyval * pyval))) : list (string * list (pyval * pyval)) :=
  match acc with
  | [] => [(name, match entry with Some e => [e] | None => [] end)]
  | (n, es) :: r =>
      if String.eqb n name
      then (n, (es ++ match entry with Some e => [e] | None => [] end)%list) :: r
      else (n, es) :: add_attribute name entry r
  end.

Definition attribute_entry (attr_data : pyval) : option (pyval * pyval) :=
  match attr_data with
  | PDict d =>
      Some (match assoc_get "confidence" d with Some c => c | None => PInt 0 end,
            match assoc_get "confidence_breakdown" d with Some bd => bd | None => PDict [] end)
  | _ => None
  end.

Definition collect_attribute_confidence (json_data_list : list pyval)
  : exn_or (list (string * list (pyval * pyval))) :=
  fold_left
    (fun acc pdf_data =>
       acc' <- acc ;;
       extracted_attrs <- py_get pdf_data "extracted_attributes" (PDict []) ;;
       match extracted_attrs with
       | PDict kvs =>
           inr (fold_left (fun a kv => add_attribute (fst kv) (attribute_entry (snd kv)) a) kvs acc')
       | _ => inl "AttributeError"
       end)
    json_data_list (inr []).

(** A row of the attribute-level table, with its [idx]: the row is written
    at [row + 1 + idx], so a skipped attribute leaves its line blank. *)
Record attribute_row := mk_attribute_row {
  ar_index : nat;
  ar_name : string;
  ar_avg : Q;
  ar_min : Q;
  ar_max : Q;
  ar_text_clarity : Q;
  ar_exact_match : Q;
  ar_context_match : Q;
  ar_format_validity : Q
}.

(** [min] and [max] keep the first of equal values. *)
Definition py_min_q (a b : Q) : Q := if Qle_bool a b then a else b.

Definition py_max_q (a b : Q) : Q := if Qle_bool b a then a else b.

Fixpoint py_numbers (vs : list pyval) : exn_or (list Q) :=
  match vs with
  | [] => inr []
  | v :: r => q <- py_number v ;; qs <- py_numbers r ;; inr (q :: qs)
  end.

(** The average of one breakdown component over the entries whose
    breakdown is truthy; [0] when there is none. *)
Definition breakdown_average (k : string) (data : list (pyval * pyval)) : exn_or Q :=
  scores <- exn_map (fun e => py_get (snd e) k (PInt 0))
              (filter (fun e => py_bool (snd e)) data) ;;
  match scores with
  | [] => inr 0
  | _ => s <- py_sum scores ;; inr (s / inject_Z (Z.of_nat (length scores)))
  end.

Definition attribute_row_of (idx : nat) (name : string) (data : list (pyval * pyval))
  : exn_or (option attribute_row) :=
  match data with
  | [] => inr None
  | _ =>
      let confidences := map fst data in
      s <- py_sum confidences ;;
      qs <- py_numbers confidences ;;
      tc <- breakdown_average "text_clarity" data ;;
      em <- breakdown_average "exact_match" data ;;
      cm <- breakdown_average "context_match" data ;;
      fv <- breakdown_average "format_validity" data ;;
      match qs with
      | [] => inr None
      | q0 :: qr =>
          inr (Some (mk_attribute_row idx name
                       (s / inject_Z (Z.of_nat (length confidences)))
                       (fold_left py_min_q qr q0) (fold_left py_max_q qr q0) tc em cm fv))
      end
  end.

Fixpoint attribute_rows (idx : nat) (acc : list (string * list (pyval * pyval)))
  : exn_or (list attribute_row) :=
  match acc with
  | [] => inr []
  | (name, data) :: r =>
      o <- attribute_row_of idx name data ;;
      rest <- attribute_rows (S idx) r ;;
      inr (match o with Some ar => ar :: rest | None => rest end)
  end.

(** What [_create_data_quality_report] writes, before formatting: the
    totals, the success rate ([None] for the text ["0%"]), the average
    confidence, the per-PDF rows and the attribute rows.  The processing
    date, [datetime.now()], is not modelled. *)
Record quality_report := mk_quality_report {
  qr_total_pdfs : Z;
  qr_successful_extractions : Z;
  qr_success_rate : option Q;
  qr_avg_confidence : Q;
  qr_details : list (list pyval);
  qr_attribute_rows : list attribute_row
}.

Definition _create_data_quality_report (json_data_list : list pyval) : exn_or quality_report :=
  let total_pdfs := Z.of_nat (length json_data_list) in
  succ <- exn_map pdf_successful json_data_list ;;
  let successful_extractions := Z.of_nat (length (filter (fun b => b) succ)) in
  avg_confidence <-
    (if (0 <? total_pdfs)%Z then
       confs <- exn_map (fun p => metadata_get p "confidence_score" (PInt 0)) json_data_list ;;
       s <- py_sum confs ;;
       inr (s / inject_Z total_pdfs)
     else inr 0) ;;
  details <- exn_map detail_row json_data_list ;;
  acc <- collect_attribute_confidence json_data_list ;;
  rows <- attribute_rows 0 acc ;;
  inr (mk_quality_report total_pdfs successful_extractions
         (if (0 <? total_pdfs)%Z then Some (inject_Z successful_extractions / inject_Z total_pdfs)
          else None)
         avg_confidence details rows).

(** ** Readings of the code's behaviour *)

(** [b] comes after [a] in the order [sort(key=LastModified, reverse=True)]
    leaves: it is not newer. *)
Definition newer_first (a b : pdf_info) : Prop :=
  (info_last_modified b <= info_last_modified a)%Z.

(** [l[-n:]]. *)
Definition lastn {A : Type} (n : nat) (l : list A) : list A := skipn (length l - n) l.

(** The input passes [if not user_input or not user_input.strip()]. *)
Definition nonblank (u : string) : bool := py_truthy u && py_truthy (py_strip u).

(** The bot's state after a sequence of [handle_user_input] calls. *)
Definition run_inputs (B : bedrock_env) (py_str : pyval -> string) (st : bot_state)
  (inputs : list string) : bot_state :=
  fold_left (fun s u => snd (handle_user_input B py_str s u)) inputs st.

(** The exchanges the bot answers on a context: none without context data,
    otherwise one per non-blank input. *)
Definition answered_exchanges (B : bedrock_env) (py_str : pyval -> string) (ctx : pyval)
  (inputs : list string) : list (string * string) :=
  if py_bool ctx then map (fun u => (u, chatbot_response B py_str u ctx)) (filter nonblank inputs)
  else [].

(** A metric has an entry in the attributes and that entry is not [None]
    itself; a dict entry counts whatever its ['value'] is. *)
Definition metric_entry_present (attrs : list (string * pyval)) (m : string) : bool :=
  match assoc_get m attrs with Some v => negb (is_none v) | None => false end.

(** ** Concrete inputs *)
Module Fixtures.

(** [n] copies of the letter [a]. *)
Fixpoint letters (n : nat) : string :=
  match n with O => "" | S k => String "a" (letters k) end.

(** Libraries answering with fixed data: pdfplumber's per-page texts, the
    PyMuPDF pages (each page is its own text) and, for every page, the same
    OCR words with their confidences. *)
Definition env (plumber : list (exn_or (option string))) (pages : list string)
  (words : list (string * Q)) : pdf_env string unit :=
  {| pdfplumber_pages := fun _ => inr plumber;
     fitz_open := fun _ => inr pages;
     page_get_text := fun p => inr p;
     page_to_image := fun _ _ => inr tt;
     image_to_data := fun _ => inr words;
     elapsed := 0 |}.

(** The example object of the extraction prompt, as the model's reply. *)
(** A JSON string literal: the text between double quotes. *)
Definition jq (t : string) : string :=
  String (ascii_of_nat 34) (t ++ String (ascii_of_nat 34) "").

Definition prompt_example_reply : string :=
  "{" ++ jq "extracted_attributes" ++ ": {" ++ jq "Total Revenue" ++ ": {" ++
  jq "value" ++ ": " ++ jq "1500000" ++ ", " ++ jq "confidence" ++ ": 0.95, " ++
  jq "confidence_breakdown" ++ ": {" ++ jq "text_clarity" ++ ": 0.95, " ++
  jq "exact_match" ++ ": 0.90, " ++ jq "context_match" ++ ": 0.98, " ++
  jq "format_validity" ++ ": 0.92}}}}".

Definition prompt_example_json : json :=
  JObj [("extracted_attributes",
    JObj [("Total Revenue",
      JObj [("value", JStr "1500000"); ("confidence", JNum (95 # 100));
            ("confidence_breakdown",
               JObj [("text_clarity", JNum (95 # 100)); ("exact_match", JNum (90 # 100));
                     ("context_match", JNum (98 # 100)); ("format_validity", JNum (92 # 100))])])])].

(** A model answering with [reply], and [json.loads] on that text. *)
Definition bedrock (reply : string) (parsed : json) : bedrock_env :=
  {| json_loads := fun t => if String.eqb t reply then Some parsed else None;
     invoke_model := fun _ _ => Reply reply |}.

Definition revenue_schema : list attribute_config :=
  [mk_attr "Total Revenue" "Total revenue for the period" "currency" true;
   mk_attr "Report Year" "Fiscal year of the report" "number" true].









(** A document whose first page has text and whose second page fails, in
    pdfplumber and in PyMuPDF. *)
Definition failing_env : pdf_env string unit :=
  {| pdfplumber_pages := fun _ => inr [inr (Some "Revenue 100"); inl "PDFSyntaxError"];
     fitz_open := fun _ => inr ["Revenue 100"; "bad"];
     page_get_text := fun p => if String.eqb p "bad" then inl "RuntimeError" else inr p;
     page_to_image := fun _ _ => inr tt;
     image_to_data := fun _ => inr [];
     elapsed := 0 |}.

(** A bucket listing with two PDFs (one in upper case), a text file and the
    folder marker itself. *)
Definition objects : list s3_object :=
  [mk_s3_object "in/a.pdf" 10 5; mk_s3_object "in/notes.txt" 1 9;
   mk_s3_object "in/B.PDF" 20 7; mk_s3_object "in/" 0 1].

Definition s3_listing (contents : list s3_object) : s3_env :=
  {| list_objects_v2 := fun _ _ => S3Ok (Some contents);
     head_object := fun _ _ => S3Ok 0%Z;
     get_object := fun _ _ => S3Ok [] |}.

Definition single_bucket : s3_config := mk_s3_config true "reports" "in" "".

(** Consolidated data of [n + 1] documents; the first one reports revenue,
    a [None] net income and total assets whose ['value'] is [None]. *)
Definition chat_context (n : nat) : list (string * pyval) :=
  [("consolidated_data",
     PList (PDict [("extracted_attributes",
                    PDict [("Total Revenue", PDict [("value", PInt 5)]);
                           ("Net Income", PNone);
                           ("Total Assets", PDict [("value", PNone)])])]
            :: repeat (PDict []) n))].

(** Consolidated data whose first document has a bare attribute value. *)
Definition bare_context : list (string * pyval) :=
  [("consolidated_data",
     PList [PDict [("extracted_attributes", PDict [("Total Revenue", PInt 5)])]])].

(** Consolidated data whose attribute confidence is a string. *)
Definition text_confidence_context : list (string * pyval) :=
  [("consolidated_data",
     PList [PDict [("extracted_attributes",
                    PDict [("Total Revenue", PDict [("confidence", PStr "high")])])];
            PDict []])].

End Fixtures.

(** ** Lemmas on the string helpers *)

Lemma length_string_of_list_ascii (l : list ascii) :
  String.length (string_of_list_ascii l) = List.length l.
Proof. induction l as [|c l IH]; simpl; congruence. Qed.

Lemma length_list_ascii_of_string (s : string) :
  List.length (list_ascii_of_string s) = String.length s.
Proof. induction s as [|c s IH]; simpl; congruence. Qed.

Lemma drop_space_length (l : list ascii) :
  (List.length (drop_space l) <= List.length l)%nat.
Proof.
  induction l as [|c l IH]; simpl; [lia|].
  destruct (py_isspace c); simpl; lia.
Qed.

Lemma py_strip_length (s : string) :
  (String.length (py_strip s) <= String.length s)%nat.
Proof.
  unfold py_strip. rewrite length_string_of_list_ascii, length_rev.
  rewrite <- length_list_ascii_of_string.
  pose proof (drop_space_length (list_ascii_of_string s)).
  pose proof (drop_space_length (rev (drop_space (list_ascii_of_string s)))).
  rewrite length_rev in H0. lia.
Qed.

Lemma py_truthy_false (s : string) : py_truthy s = false -> s = "".
Proof. destruct s; simpl; congruence. Qed.

Lemma py_truthy_length (s : string) :
  (0 < String.length s)%nat -> py_truthy s = true.
Proof. destruct s; simpl; [lia | reflexivity]. Qed.

(** A text whose stripped length exceeds 100 wins the cascade step. *)
Lemma wins_iff (t : string) :
  wins t = true <-> (100 < String.length (py_strip t))%nat.
Proof.
  unfold wins. rewrite andb_true_iff, Nat.ltb_lt. split; [tauto|].
  intros H. split; [|exact H]. apply py_truthy_length.
  pose proof (py_strip_length t). lia.
Qed.

Lemma sufficiency_check_text (r : extraction_result) :
  text (sufficiency_check r) = text r.
Proof. unfold sufficiency_check. destruct (_ || _); reflexivity. Qed.

Lemma sufficiency_check_method (r : extraction_result) :
  extraction_method (sufficiency_check r) = extraction_method r.
Proof. unfold sufficiency_check. destruct (_ || _); reflexivity. Qed.

Lemma sufficiency_check_has_text (r : extraction_result) :
  has_text (sufficiency_check r) = has_text r.
Proof. unfold sufficiency_check. destruct (_ || _); reflexivity. Qed.

(** A text whose stripped length is at least 50 passes the check untouched. *)
Lemma sufficiency_check_keep (r : extraction_result) :
  (50 <= String.length (py_strip (text r)))%nat -> sufficiency_check r = r.
Proof.
  intros H. unfold sufficiency_check.
  assert (Ht : py_truthy (text r) = true).
  { apply py_truthy_length. pose proof (py_strip_length (text r)). lia. }
  rewrite Ht. simpl.
  destruct (Nat.ltb_spec (String.length (py_strip (text r))) 50); [lia|].
  reflexivity.
Qed.

(** A text shorter than 50 characters is downgraded. *)
Lemma sufficiency_check_short (r : extraction_result) :
  (String.length (text r) < 50)%nat ->
  sufficiency_check r =
  mk_result (filename r) (text r) (page_count r) (extraction_method r)
    (processing_time r) (has_text r) (has_images r) (1 # 10)
    (app (errors r) ["Insufficient text extracted from PDF"]).
Proof.
  intros H. unfold sufficiency_check.
  pose proof (py_strip_length (text r)).
  destruct (Nat.ltb_spec (String.length (py_strip (text r))) 50); [|lia].
  rewrite orb_true_r. reflexivity.
Qed.

Section ExtractionFacts.
Context {page image : Type} (E : pdf_env page image).

Lemma extract_text_from_pdf_eq (b : bytes) (f : string) :
  extract_text_from_pdf E b f = sufficiency_check (fst (extract_before_check E b f)).
Proof.
  unfold extract_text_from_pdf, extract_text_from_pdf_traced, extract_body.
  destruct (extract_before_check E b f); reflexivity.
Qed.

Lemma extract_traced_calls (b : bytes) (f : string) :
  snd (extract_text_from_pdf_traced E b f) = snd (extract_before_check E b f).
Proof.
  unfold extract_text_from_pdf_traced, extract_body.
  destruct (extract_before_check E b f); reflexivity.
Qed.

(** The page count and the timing leave the cascade's fields unchanged. *)
Lemma extract_before_check_fields (b : bytes) (f : string) :
  let '(r1, calls) := cascade E b (initial_result f) in
  let r := fst (extract_before_check E b f) in
  snd (extract_before_check E b f) = calls /\
  text r = text r1 /\ extraction_method r = extraction_method r1 /\
  has_text r = has_text r1 /\ confidence_score r = confidence_score r1 /\
  errors r = errors r1.
Proof.
  unfold extract_before_check.
  destruct (cascade E b (initial_result f)) as [r1 calls].
  unfold set_page_count. destruct (fitz_open E b); simpl; repeat split.
Qed.

End ExtractionFacts.

Lemma ocr_method {page image : Type} (E : pdf_env page image) (b : bytes) :
  ocr_extraction_method (_extract_with_ocr E b) = "ocr".
Proof.
  unfold _extract_with_ocr. destruct (fitz_open E b) as [e|doc]; [reflexivity|].
  destruct (ocr_pages_data E (firstn 10 doc)) as [e|datas]; [reflexivity|].
  destruct (fold_left ocr_page_step datas ([], 0, O)) as [[parts total] n].
  destruct parts; reflexivity.
Qed.

(** The cascade's method is the one of the first winning strategy. *)
Lemma cascade_cases {page image : Type} (E : pdf_env page image) (b : bytes)
  (r : extraction_result) :
  let t1 := _extract_with_pdfplumber E b in
  let t2 := _extract_with_pymupdf E b in
  (wins t1 = true ->
     cascade E b r = (update_with_text r t1 "pdfplumber" (95 # 100), [Native])) /\
  (wins t1 = false -> wins t2 = true ->
     cascade E b r = (update_with_text r t2 "pymupdf" (90 # 100), [Native; Alternate])) /\
  (wins t1 = false -> wins t2 = false ->
     cascade E b r = (update_with_ocr r (_extract_with_ocr E b), [Native; Alternate; OCR])).
Proof.
  simpl. unfold cascade.
  repeat split; intros; repeat match goal with H : _ = _ |- _ => rewrite H end;
    reflexivity.
Qed.

Lemma method_pdfplumber_wins {page image : Type} (E : pdf_env page image)
  (b : bytes) (f : string) :
  extraction_method (extract_text_from_pdf E b f) = "pdfplumber" ->
  wins (_extract_with_pdfplumber E b) = true.
Proof.
  rewrite extract_text_from_pdf_eq, sufficiency_check_method.
  pose proof (extract_before_check_fields E b f) as HF.
  pose proof (cascade_cases E b (initial_result f)) as [H1 [H2 H3]]. simpl in *.
  destruct (wins (_extract_with_pdfplumber E b)); [reflexivity|].
  destruct (wins (_extract_with_pymupdf E b)).
  - rewrite H2 in HF by reflexivity. simpl in HF.
    destruct HF as [_ [_ [-> _]]]. discriminate.
  - rewrite H3 in HF by reflexivity. simpl in HF.
    destruct HF as [_ [_ [-> _]]]. rewrite ocr_method. discriminate.
Qed.

(** ** The text-extraction cascade *)

(** C1 (amended).  [extract_text_from_pdf] calls its strategies in the order
    pdfplumber, PyMuPDF, OCR; a strategy wins when its text is longer than 100
    characters after [strip()].  When pdfplumber wins, no other strategy is
    called and the result is its text, method ["pdfplumber"], confidence
    0.95; when PyMuPDF wins, OCR is not called and the result is its text,
    method ["pymupdf"], confidence 0.90; otherwise the OCR result is taken,
    method ["ocr"].  (The result is a function of the strategies' outputs,
    so repeated calls on the same bytes agree.) *)
Theorem cascade_strict_priority {page image : Type} (E : pdf_env page image)
  (b : bytes) (f : string) :
  let t1 := _extract_with_pdfplumber E b in
  let t2 := _extract_with_pymupdf E b in
  let r := extract_text_from_pdf E b f in
  let calls := snd (extract_text_from_pdf_traced E b f) in
  ((100 < String.length (py_strip t1))%nat ->
     calls = [Native] /\ text r = t1 /\ extraction_method r = "pdfplumber" /\
     confidence_score r = 95 # 100) /\
  ((String.length (py_strip t1) <= 100)%nat ->
   (100 < String.length (py_strip t2))%nat ->
     calls = [Native; Alternate] /\ text r = t2 /\
     extraction_method r = "pymupdf" /\ confidence_score r = 90 # 100) /\
  ((String.length (py_strip t1) <= 100)%nat ->
   (String.length (py_strip t2) <= 100)%nat ->
     calls = [Native; Alternate; OCR] /\
     text r = ocr_text (_extract_with_ocr E b) /\ extraction_method r = "ocr").
Proof.
  intros t1 t2 r calls. subst r calls.
  rewrite extract_text_from_pdf_eq, extract_traced_calls.
  pose proof (extract_before_check_fields E b f) as HF.
  pose proof (cascade_cases E b (initial_result f)) as [H1 [H2 H3]]. simpl in *.
  fold t1 t2 in H1, H2, H3 |- *.
  split; [|split].
  - intros Hl. apply wins_iff in Hl. rewrite H1 in HF by exact Hl. simpl in HF.
    destruct HF as [Hc [Ht [Hm [_ [Hs _]]]]].
    rewrite sufficiency_check_keep; [|rewrite Ht; apply wins_iff in Hl; lia].
    repeat split; assumption.
  - intros Hl1 Hl2.
    assert (W1 : wins t1 = false).
    { destruct (wins t1) eqn:W; [apply wins_iff in W; lia | reflexivity]. }
    apply wins_iff in Hl2. rewrite H2 in HF by assumption. simpl in HF.
    destruct HF as [Hc [Ht [Hm [_ [Hs _]]]]].
    rewrite sufficiency_check_keep; [|rewrite Ht; apply wins_iff in Hl2; lia].
    repeat split; assumption.
  - intros Hl1 Hl2.
    assert (W1 : wins t1 = false).
    { destruct (wins t1) eqn:W; [apply wins_iff in W; lia | reflexivity]. }
    assert (W2 : wins t2 = false).
    { destruct (wins t2) eqn:W; [apply wins_iff in W; lia | reflexivity]. }
    rewrite H3 in HF by assumption. simpl in HF.
    destruct HF as [Hc [Ht [Hm _]]].
    rewrite sufficiency_check_text, sufficiency_check_method, Ht, Hm, ocr_method.
    repeat split; assumption.
Qed.

Lemma cascade_strict_priority_witness :
  let E := Fixtures.env [inr (Some (Fixtures.letters 120))] [] [] in
  (100 < String.length (py_strip (_extract_with_pdfplumber E [])))%nat /\
  snd (extract_text_from_pdf_traced E [] "q.pdf") = [Native] /\
  text (extract_text_from_pdf E [] "q.pdf") = _extract_with_pdfplumber E [] /\
  extraction_method (extract_text_from_pdf E [] "q.pdf") = "pdfplumber" /\
  confidence_score (extract_text_from_pdf E [] "q.pdf") = 95 # 100.
Proof.
  intros E. assert (H : (100 < String.length (py_strip (_extract_with_pdfplumber E [])))%nat)
    by (apply Nat.ltb_lt; vm_compute; reflexivity).
  split; [exact H|].
  exact (proj1 (cascade_strict_priority E [] "q.pdf") H).
Defined.

(** C1 as stated fails: a pdfplumber text of 101 characters, one of them a
    leading space, is not taken, because the threshold is on the stripped
    text. *)
Lemma cascade_raw_length_counterexample :
  let E := Fixtures.env [inr (Some (String " " (Fixtures.letters 100)))] [] [] in
  (100 < String.length (_extract_with_pdfplumber E []))%nat /\
  extraction_method (extract_text_from_pdf E [] "q.pdf") <> "pdfplumber".
Proof.
  intros E. split.
  - apply Nat.ltb_lt. vm_compute. reflexivity.
  - vm_compute. discriminate.
Qed.

(** C2.  Whatever strategy produced it, a final text shorter than 50
    characters (the empty text included) gives confidence exactly 0.1 with
    ["Insufficient text extracted from PDF"] appended to the errors. *)
Theorem short_text_downgraded {page image : Type} (E : pdf_env page image)
  (b : bytes) (f : string) :
  (String.length (text (extract_text_from_pdf E b f)) < 50)%nat ->
  confidence_score (extract_text_from_pdf E b f) = 1 # 10 /\
  exists es, errors (extract_text_from_pdf E b f) =
             app es ["Insufficient text extracted from PDF"].
Proof.
  rewrite !extract_text_from_pdf_eq, sufficiency_check_text. intros H.
  rewrite sufficiency_check_short by exact H. simpl.
  split; [reflexivity | eexists; reflexivity].
Qed.

Lemma short_text_downgraded_witness :
  let E := Fixtures.env [] [] [] in
  (String.length (text (extract_text_from_pdf E [] "blank.pdf")) < 50)%nat /\
  confidence_score (extract_text_from_pdf E [] "blank.pdf") = 1 # 10 /\
  exists es, errors (extract_text_from_pdf E [] "blank.pdf") =
             app es ["Insufficient text extracted from PDF"].
Proof.
  intros E.
  assert (H : (String.length (text (extract_text_from_pdf E [] "blank.pdf")) < 50)%nat)
    by (apply Nat.ltb_lt; vm_compute; reflexivity).
  split; [exact H|]. exact (short_text_downgraded E [] "blank.pdf" H).
Defined.

(** C9 as stated fails: no input whose pdfplumber text has 60 characters
    ends with method ["pdfplumber"]; 60 is below the win threshold. *)
Lemma sixty_chars_native_counterexample :
  ~ exists (page image : Type) (E : pdf_env page image) (b : bytes) (f : string),
      String.length (_extract_with_pdfplumber E b) = 60%nat /\
      extraction_method (extract_text_from_pdf E b f) = "pdfplumber".
Proof.
  intros (page & image & E & b & f & Hl & Hm).
  apply method_pdfplumber_wins, wins_iff in Hm.
  pose proof (py_strip_length (_extract_with_pdfplumber E b)). lia.
Qed.

(** C9 (amended).  The win threshold and the sufficiency floor are separate
    checks: a pdfplumber text of 60 characters does not win (PyMuPDF is
    called next and the method is not ["pdfplumber"]); a text whose stripped
    length is 60 passes the sufficiency check untouched, keeping the
    confidence its strategy set; a final text of 40 characters is downgraded
    to 0.1 whatever its strategy. *)
Theorem win_and_floor_independent {page image : Type} (E : pdf_env page image)
  (b : bytes) (f : string) :
  let pre := fst (extract_before_check E b f) in
  let r := extract_text_from_pdf E b f in
  (String.length (_extract_with_pdfplumber E b) = 60%nat ->
     In Alternate (snd (extract_text_from_pdf_traced E b f)) /\
     extraction_method r <> "pdfplumber") /\
  (String.length (py_strip (text pre)) = 60%nat -> r = pre) /\
  (String.length (text r) = 40%nat -> confidence_score r = 1 # 10).
Proof.
  intros pre r. subst pre r. split; [|split].
  - intros Hl. split.
    + rewrite extract_traced_calls.
      pose proof (extract_before_check_fields E b f) as HF.
      pose proof (cascade_cases E b (initial_result f)) as [_ [H2 H3]]. simpl in *.
      assert (W1 : wins (_extract_with_pdfplumber E b) = false).
      { destruct (wins _) eqn:W; [|reflexivity]. apply wins_iff in W.
        pose proof (py_strip_length (_extract_with_pdfplumber E b)). lia. }
      destruct (wins (_extract_with_pymupdf E b)) eqn:W2.
      * rewrite H2 in HF by first [assumption | reflexivity]. simpl in HF. rewrite (proj1 HF). simpl; tauto.
      * rewrite H3 in HF by first [assumption | reflexivity]. simpl in HF. rewrite (proj1 HF). simpl; tauto.
    + intros Hm. apply method_pdfplumber_wins, wins_iff in Hm.
      pose proof (py_strip_length (_extract_with_pdfplumber E b)). lia.
  - intros Hl. rewrite extract_text_from_pdf_eq. apply sufficiency_check_keep. lia.
  - intros Hl. apply short_text_downgraded. lia.
Qed.

Lemma win_and_floor_independent_witness :
  let E := Fixtures.env [inr (Some (Fixtures.letters 60))] [] [] in
  String.length (_extract_with_pdfplumber E []) = 60%nat /\
  In Alternate (snd (extract_text_from_pdf_traced E [] "s.pdf")) /\
  extraction_method (extract_text_from_pdf E [] "s.pdf") <> "pdfplumber".
Proof.
  intros E.
  assert (H : String.length (_extract_with_pdfplumber E []) = 60%nat)
    by (vm_compute; reflexivity).
  split; [exact H|]. exact (proj1 (win_and_floor_independent E [] "s.pdf") H).
Defined.

(** ** The OCR fallback *)

Lemma ocr_pages_data_congr {page image : Type} (E1 E2 : pdf_env page image)
  (ps : list page) :
  (forall p, page_to_image E1 p 2 = page_to_image E2 p 2) ->
  (forall img, image_to_data E1 img = image_to_data E2 img) ->
  ocr_pages_data E1 ps = ocr_pages_data E2 ps.
Proof.
  intros Hp Hi. induction ps as [|p ps IH]; simpl; [reflexivity|].
  rewrite Hp. destruct (page_to_image E2 p 2) as [e|img]; [reflexivity|].
  rewrite Hi. destruct (image_to_data E2 img); [reflexivity|].
  rewrite IH. reflexivity.
Qed.

Lemma ocr_pages_data_from_recognizer {page image : Type} (E : pdf_env page image)
  (ps : list page) (datas : list (list (string * Q))) :
  ocr_pages_data E ps = inr datas ->
  forall d, In d datas -> exists img, image_to_data E img = inr d.
Proof.
  revert datas. induction ps as [|p ps IH]; simpl; intros datas H d Hd.
  - injection H as <-. destruct Hd.
  - destruct (page_to_image E p 2) as [e|img]; [discriminate|].
    destruct (image_to_data E img) as [e|d0] eqn:Hi; [discriminate|].
    destruct (ocr_pages_data E ps) as [e|ds] eqn:Hr; [discriminate|].
    injection H as <-. destruct Hd as [<-|Hd]; [exists img; exact Hi|].
    exact (IH ds eq_refl d Hd).
Qed.

Definition page_text_of (d : list (string * Q)) : string :=
  py_join " " (map fst (filter ocr_keep d)).

(** The page loop accumulates the text, the per-page averages and the
    number of pages that yielded text. *)
Lemma fold_ocr_page_step (datas : list (list (string * Q))) :
  forall parts total n,
  let '(parts', total', n') := fold_left ocr_page_step datas (parts, total, n) in
  parts' = app parts (map page_text_of (filter yields_text datas)) /\
  total' == total + fold_right Qplus 0
              (map (fun d => page_average (kept_confidences d))
                   (filter yields_text datas)) /\
  n' = (n + length (filter yields_text datas))%nat.
Proof.
  induction datas as [|d datas IH]; intros parts total n; simpl.
  - rewrite app_nil_r. repeat split; [lra | lia].
  - assert (Y : yields_text d =
                 match filter ocr_keep d with [] => false | _ => true end)
      by reflexivity.
    assert (Pt : page_text_of d = py_join " " (map fst (filter ocr_keep d)))
      by reflexivity.
    assert (Pa : page_average (kept_confidences d) =
                 inject_Z (fold_right Z.add 0%Z
                             (map (fun wc => py_int (snd wc)) (filter ocr_keep d))) /
                 inject_Z (Z.of_nat (length (map (fun wc => py_int (snd wc))
                                                (filter ocr_keep d)))))
      by reflexivity.
    destruct (filter ocr_keep d) as [|wc kept] eqn:K; rewrite Y.
    + apply IH.
    + match goal with
      | |- context [fold_left ocr_page_step datas (?p, ?t, ?m)] =>
          specialize (IH p t m);
          destruct (fold_left ocr_page_step datas (p, t, m)) as [[parts' total'] n']
      end.
      simpl. rewrite Pt, Pa.
      destruct IH as [H1 [H2 H3]]. repeat split.
      * rewrite H1, <- app_assoc. reflexivity.
      * rewrite H2. ring.
      * lia.
Qed.

Lemma py_int_le_100 (q : Q) : q <= 100 -> (py_int q <= 100)%Z.
Proof.
  unfold Qle, py_int. simpl. intros H.
  assert (Hd : (0 < Zpos (Qden q))%Z) by reflexivity.
  rewrite <- (Z.quot_mul 100 (Zpos (Qden q))) by lia.
  apply Z.quot_le_mono; lia.
Qed.

Lemma kept_confidences_range (d : list (string * Q)) :
  (forall wc, In wc d -> snd wc <= 100) ->
  Forall (fun c => (0 <= c <= 100)%Z) (kept_confidences d).
Proof.
  intros H. unfold kept_confidences. apply Forall_forall.
  intros c Hc. apply in_map_iff in Hc as [wc [<- Hwc]].
  apply filter_In in Hwc as [Hin Hk]. unfold ocr_keep in Hk.
  apply andb_true_iff in Hk as [_ Hk]. apply Z.ltb_lt in Hk.
  pose proof (py_int_le_100 _ (H wc Hin)). lia.
Qed.

Lemma Qdiv_bounds (a c k : Q) :
  0 < k -> 0 <= a -> a <= c * k -> 0 <= a / k /\ a / k <= c.
Proof.
  intros Hk Ha Hb. split.
  - apply Qle_shift_div_l; [exact Hk|]. rewrite Qmult_0_l. exact Ha.
  - apply Qle_shift_div_r; [exact Hk|]. exact Hb.
Qed.

Lemma sum_Z_bounds (cs : list Z) :
  Forall (fun c => (0 <= c <= 100)%Z) cs ->
  (0 <= fold_right Z.add 0 cs <= 100 * Z.of_nat (length cs))%Z.
Proof. induction 1; simpl; lia. Qed.

Lemma page_average_bounds (cs : list Z) :
  cs <> [] -> Forall (fun c => (0 <= c <= 100)%Z) cs ->
  0 <= page_average cs /\ page_average cs <= 100.
Proof.
  intros Hne Hf. pose proof (sum_Z_bounds cs Hf) as [H0 H1].
  assert (Hl : (0 < Z.of_nat (length cs))%Z).
  { destruct cs; [congruence | simpl; lia]. }
  apply Qdiv_bounds.
  - rewrite <- (Qmult_0_l 1). change (inject_Z 0 < inject_Z (Z.of_nat (length cs))).
    rewrite <- Zlt_Qlt. exact Hl.
  - change 0 with (inject_Z 0). rewrite <- Zle_Qle. exact H0.
  - rewrite <- (inject_Z_mult 100). rewrite <- Zle_Qle. exact H1.
Qed.

Lemma sum_Q_bounds (qs : list Q) :
  Forall (fun q => 0 <= q /\ q <= 100) qs ->
  0 <= fold_right Qplus 0 qs /\
  fold_right Qplus 0 qs <= 100 * inject_Z (Z.of_nat (length qs)).
Proof.
  induction 1 as [|q qs [Hq0 Hq1] _ [IH0 IH1]]; cbn [fold_right length].
  - change (inject_Z (Z.of_nat 0)) with 0. split; lra.
  - rewrite Nat2Z.inj_succ, <- Z.add_1_r, inject_Z_plus.
    change (inject_Z 1) with 1. split; lra.
Qed.

Lemma spec_ocr_confidence_bounds (datas : list (list (string * Q))) :
  (forall d wc, In d datas -> In wc d -> snd wc <= 100) ->
  0 <= spec_ocr_confidence datas /\ spec_ocr_confidence datas <= 1.
Proof.
  intros Hb. unfold spec_ocr_confidence.
  remember (map _ (filter yields_text datas)) as avgs eqn:Havgs.
  assert (Ha : Forall (fun q => 0 <= q /\ q <= 100) avgs).
  { apply Forall_forall. intros q Hq. subst avgs.
    apply in_map_iff in Hq as [d [<- Hd]]. apply filter_In in Hd as [Hin Hy].
    apply page_average_bounds.
    - unfold kept_confidences. unfold yields_text in Hy.
      destruct (filter ocr_keep d); discriminate.
    - apply kept_confidences_range. intros wc Hwc. exact (Hb d wc Hin Hwc). }
  clear Havgs. destruct avgs as [|a rest]; [split; lra|].
  pose proof (sum_Q_bounds (a :: rest) Ha) as [S0 S1].
  assert (Hl : 0 < inject_Z (Z.of_nat (length (a :: rest)))).
  { change 0 with (inject_Z 0). rewrite <- Zlt_Qlt. simpl. lia. }
  destruct (Qdiv_bounds _ 100 _ Hl S0 S1) as [M0 M1].
  apply Qdiv_bounds; [reflexivity | exact M0 | lra].
Qed.

(** What [_extract_with_ocr] returns, by what the loop reads. *)
Lemma extract_with_ocr_cases {page image : Type} (E : pdf_env page image) (b : bytes) :
  match ocr_input E b with
  | inl e =>
      _extract_with_ocr E b = mk_ocr "" "ocr" false true 0 ["OCR failed: " ++ e]
  | inr datas =>
      (filter yields_text datas = [] ->
         _extract_with_ocr E b =
         mk_ocr "" "ocr" false true 0 ["OCR could not extract readable text"]) /\
      (filter yields_text datas <> [] ->
         ocr_text (_extract_with_ocr E b) =
           py_join nl (map page_text_of (filter yields_text datas)) /\
         ocr_has_text (_extract_with_ocr E b) = true /\
         ocr_confidence_score (_extract_with_ocr E b) == spec_ocr_confidence datas /\
         ocr_errors (_extract_with_ocr E b) = [])
  end.
Proof.
  unfold ocr_input, _extract_with_ocr.
  destruct (fitz_open E b) as [e|doc]; [reflexivity|].
  destruct (ocr_pages_data E (firstn 10 doc)) as [e|datas]; [reflexivity|].
  pose proof (fold_ocr_page_step datas [] 0 O) as HF.
  destruct (fold_left ocr_page_step datas ([], 0, O)) as [[parts total] n].
  destruct HF as [Hp [Ht Hn]]. simpl in Hp, Hn. subst parts n.
  unfold spec_ocr_confidence.
  destruct (filter yields_text datas) as [|d pw] eqn:Hpw.
  - split; [reflexivity | congruence].
  - split; [discriminate|]. intros _. simpl. repeat split.
    rewrite Ht, Qplus_0_l. rewrite length_map. reflexivity.
Qed.

Lemma extract_with_ocr_bounded {page image : Type} (E : pdf_env page image)
  (b : bytes) :
  confidences_at_most_100 E ->
  0 <= ocr_confidence_score (_extract_with_ocr E b) /\
  ocr_confidence_score (_extract_with_ocr E b) <= 1.
Proof.
  pose proof (extract_with_ocr_cases E b) as HC.
  intros Hb. destruct (ocr_input E b) as [e|datas] eqn:Hd.
  - rewrite HC. simpl. split; lra.
  - assert (Hr : forall d wc, In d datas -> In wc d -> snd wc <= 100).
    { intros d wc Hin Hwc. unfold ocr_input in Hd.
      destruct (fitz_open E b); [discriminate|].
      destruct (ocr_pages_data_from_recognizer E _ _ Hd d Hin) as [img Himg].
      exact (Hb img d wc Himg Hwc). }
    destruct HC as [H0 H1]. destruct (filter yields_text datas) eqn:Hpw.
    + rewrite H0 by reflexivity. simpl. split; lra.
    + destruct (H1 ltac:(discriminate)) as [_ [_ [Hc _]]].
      rewrite Hc. apply spec_ocr_confidence_bounds. exact Hr.
Qed.

Lemma extract_with_ocr_no_text {page image : Type} (E : pdf_env page image)
  (b : bytes) :
  ocr_has_text (_extract_with_ocr E b) = false -> ocr_text (_extract_with_ocr E b) = "".
Proof.
  unfold _extract_with_ocr. destruct (fitz_open E b) as [e|doc]; [reflexivity|].
  destruct (ocr_pages_data E (firstn 10 doc)) as [e|datas]; [reflexivity|].
  destruct (fold_left ocr_page_step datas ([], 0, O)) as [[parts total] n].
  destruct parts; simpl; [reflexivity | discriminate].
Qed.

(** C3.  The OCR fallback reads only the first 10 pages, rendered at zoom 2
    (two library environments agreeing on those give the same result); when
    the pages are read, its confidence is the mean, over the pages that kept
    any word (a word is kept when [int(conf) > 30]), of the page's average
    kept-word confidence, divided by 100; if no page yields text, or reading
    fails, the confidence is 0 and an error is recorded; with recognizer
    confidences on the 0-100 scale the confidence lies in [0,1]. *)
Theorem ocr_fallback_confidence {page image : Type} (E : pdf_env page image)
  (b : bytes) :
  let o := _extract_with_ocr E b in
  (forall E' : pdf_env page image,
     same_ocr_view E E' b -> _extract_with_ocr E' b = o) /\
  (forall datas, ocr_input E b = inr datas ->
     ocr_confidence_score o == spec_ocr_confidence datas /\
     (filter yields_text datas = [] ->
        ocr_confidence_score o = 0 /\ ocr_errors o <> [])) /\
  (forall e, ocr_input E b = inl e ->
     ocr_confidence_score o = 0 /\ ocr_errors o <> []) /\
  (confidences_at_most_100 E ->
     0 <= ocr_confidence_score o /\ ocr_confidence_score o <= 1).
Proof.
  intros o. pose proof (extract_with_ocr_cases E b) as HC. split; [|split; [|split]].
  - intros E' [Hf [Hp Hi]]. subst o. unfold _extract_with_ocr.
    destruct (fitz_open E b) as [e1|d1], (fitz_open E' b) as [e2|d2];
      try contradiction; subst; [reflexivity|].
    rewrite Hf. rewrite (ocr_pages_data_congr E' E) by (intros; symmetry; auto).
    reflexivity.
  - intros datas Hd. rewrite Hd in HC. destruct HC as [H0 H1].
    destruct (filter yields_text datas) eqn:Hpw.
    + subst o. rewrite H0 by reflexivity. unfold spec_ocr_confidence. rewrite Hpw.
      simpl. split; [reflexivity|]. intros _. split; [reflexivity | discriminate].
    + destruct (H1 ltac:(discriminate)) as [_ [_ [Hc _]]].
      split; [exact Hc | discriminate].
  - intros e He. rewrite He in HC. subst o. rewrite HC. split; [reflexivity | discriminate].
  - subst o. apply extract_with_ocr_bounded.
Qed.

Lemma ocr_fallback_confidence_witness :
  let E := Fixtures.env [] ["p1"; "p2"] [("Revenue", 90); ("1500", 70); ("smudge", 12)] in
  ocr_input E [] = inr [[("Revenue", 90); ("1500", 70); ("smudge", 12)];
                        [("Revenue", 90); ("1500", 70); ("smudge", 12)]] /\
  ocr_confidence_score (_extract_with_ocr E []) ==
    spec_ocr_confidence [[("Revenue", 90); ("1500", 70); ("smudge", 12)];
                         [("Revenue", 90); ("1500", 70); ("smudge", 12)]] /\
  ocr_confidence_score (_extract_with_ocr E []) == 8 # 10.
Proof.
  intros E. assert (H : ocr_input E [] = inr [[("Revenue", 90); ("1500", 70); ("smudge", 12)];
                        [("Revenue", 90); ("1500", 70); ("smudge", 12)]])
    by reflexivity.
  split; [exact H|]. split.
  - exact (proj1 (proj1 (proj2 (ocr_fallback_confidence E [])) _ H)).
  - vm_compute. reflexivity.
Defined.

(** C10.  [extract_text_from_pdf] never takes its [except] branch: its body
    yields a result for every byte string, malformed ones included, since
    every strategy catches its own failures.  With recognizer confidences on
    the 0-100 scale, the confidence lies in [0,1], and a result without text
    has confidence at most 0.1. *)
Theorem extraction_total_and_bounded {page image : Type} (E : pdf_env page image)
  (b : bytes) (f : string) :
  confidences_at_most_100 E ->
  let r := extract_text_from_pdf E b f in
  (exists rc, extract_body E b f = inr rc) /\
  (0 <= confidence_score r /\ confidence_score r <= 1) /\
  (has_text r = false -> confidence_score r <= 1 # 10).
Proof.
  intros Hb r. subst r. split.
  { unfold extract_body. destruct (extract_before_check E b f). eexists; reflexivity. }
  rewrite extract_text_from_pdf_eq.
  set (pre := fst (extract_before_check E b f)).
  destruct (negb (py_truthy (text pre)) || (String.length (py_strip (text pre)) <? 50)%nat)
    eqn:Hchk.
  { unfold sufficiency_check. rewrite Hchk. simpl.
    split; [split; lra | intros _; lra]. }
  assert (Hkeep : sufficiency_check pre = pre)
    by (unfold sufficiency_check; rewrite Hchk; reflexivity).
  rewrite Hkeep.
  apply orb_false_iff in Hchk as [Htr _]. apply negb_false_iff in Htr.
  pose proof (extract_before_check_fields E b f) as HF.
  pose proof (cascade_cases E b (initial_result f)) as [H1 [H2 H3]]. simpl in *.
  fold pre in HF.
  destruct (wins (_extract_with_pdfplumber E b)) eqn:W1;
    [|destruct (wins (_extract_with_pymupdf E b)) eqn:W2].
  - rewrite H1 in HF by reflexivity. simpl in HF.
    destruct HF as [_ [_ [_ [Hh [Hs _]]]]]. rewrite Hh, Hs.
    split; [split; unfold Qle; simpl; lia | discriminate].
  - rewrite H2 in HF by reflexivity. simpl in HF.
    destruct HF as [_ [_ [_ [Hh [Hs _]]]]]. rewrite Hh, Hs.
    split; [split; unfold Qle; simpl; lia | discriminate].
  - rewrite H3 in HF by reflexivity. simpl in HF.
    destruct HF as [_ [Ht [_ [Hh [Hs _]]]]]. rewrite Hh, Hs.
    split; [apply extract_with_ocr_bounded; exact Hb|].
    intros Hno. apply extract_with_ocr_no_text in Hno.
    rewrite Ht, Hno in Htr. discriminate.
Qed.

Lemma extraction_total_and_bounded_witness :
  let E := Fixtures.env [inl "not a PDF"] [] [] in
  confidences_at_most_100 E /\
  (exists rc, extract_body E [] "junk.bin" = inr rc) /\
  (0 <= confidence_score (extract_text_from_pdf E [] "junk.bin") /\
   confidence_score (extract_text_from_pdf E [] "junk.bin") <= 1) /\
  (has_text (extract_text_from_pdf E [] "junk.bin") = false ->
   confidence_score (extract_text_from_pdf E [] "junk.bin") <= 1 # 10).
Proof.
  intros E.
  assert (H : confidences_at_most_100 E).
  { intros img d wc Hd Hin. simpl in Hd. injection Hd as <-. destruct Hin. }
  split; [exact H|]. exact (extraction_total_and_bounded E [] "junk.bin" H).
Defined.

(** ** The attribute extractor *)

Lemma dict_set_keys {V : Type} (k : string) (v : V) (kvs : list (string * V)) :
  forall x, In x (map fst (dict_set k v kvs)) <-> x = k \/ In x (map fst kvs).
Proof.
  induction kvs as [|[k' v'] r IH]; intros x; simpl; [intuition congruence|].
  destruct (String.eqb_spec k k') as [->|Hne]; simpl; [intuition congruence|].
  rewrite IH. intuition congruence.
Qed.

Lemma dict_set_nodup {V : Type} (k : string) (v : V) (kvs : list (string * V)) :
  NoDup (map fst kvs) -> NoDup (map fst (dict_set k v kvs)).
Proof.
  induction kvs as [|[k' v'] r IH]; simpl; intros Hnd.
  - constructor; [intros []| constructor].
  - inversion Hnd as [|? ? Hnin Hnd']; subst.
    destruct (String.eqb_spec k k') as [->|Hne]; simpl.
    + constructor; assumption.
    + constructor; [|apply IH; exact Hnd'].
      rewrite dict_set_keys. intros [->|H]; [congruence | contradiction].
Qed.

Lemma dict_set_values {V : Type} (k : string) (c : V) (kvs : list (string * V)) :
  (forall x w, In (x, w) kvs -> w = c) ->
  forall x w, In (x, w) (dict_set k c kvs) -> w = c.
Proof.
  induction kvs as [|[k' v'] r IH]; simpl; intros H x w Hin.
  - destruct Hin as [Heq|[]]. congruence.
  - destruct (String.eqb k k'); simpl in Hin.
    + destruct Hin as [Heq|Hin]; [congruence | exact (H x w (or_intror Hin))].
    + destruct Hin as [Heq|Hin]; [exact (H x w (or_introl Heq))|].
      exact (IH (fun x w Hw => H x w (or_intror Hw)) x w Hin).
Qed.

(** The attribute dict of the empty response: one placeholder entry per
    schema name, no other key, no key twice. *)
Lemma empty_attributes_spec (cfg : list attribute_config) :
  forall acc,
  NoDup (map fst acc) ->
  (forall x w, In (x, w) acc -> w = empty_attribute) ->
  let res := fold_left (fun acc a => dict_set (attr_name a) empty_attribute acc) cfg acc in
  NoDup (map fst res) /\
  (forall x, In x (map fst res) <-> In x (map fst acc) \/ In x (map attr_name cfg)) /\
  (forall x w, In (x, w) res -> w = empty_attribute).
Proof.
  induction cfg as [|a cfg IH]; intros acc Hnd Hv; simpl.
  - repeat split; auto. intros [H|[]]; exact H.
  - destruct (IH (dict_set (attr_name a) empty_attribute acc)
                 (dict_set_nodup _ _ _ Hnd) (dict_set_values _ _ _ Hv))
      as [H1 [H2 H3]].
    repeat split; auto.
    + intros Hx. apply H2 in Hx. rewrite dict_set_keys in Hx. intuition congruence.
    + intros Hx. apply H2. rewrite dict_set_keys. intuition congruence.
Qed.

(** C5.  When the model call fails ([ClientError] or any other exception),
    [extract_attributes] returns a document whose [extracted_attributes]
    has exactly the schema's names as keys, each once, each entry with value
    null and confidence 0.0, and whose [extraction_metadata] carries an
    [error]; nothing is raised. *)
Theorem fallback_mirrors_schema (B : bedrock_env) (t : string)
  (cfg : list attribute_config) :
  (exists m,
     invoke_model B (_build_extraction_system_prompt cfg) (user_message t) = ClientError m \/
     invoke_model B (_build_extraction_system_prompt cfg) (user_message t) = ServiceFailure m) ->
  let out := extract_attributes B t cfg in
  (exists attrs,
     json_get "extracted_attributes" out = Some (JObj attrs) /\
     NoDup (map fst attrs) /\
     (forall k, In k (map fst attrs) <-> In k (map attr_name cfg)) /\
     (forall k v, In (k, v) attrs ->
        json_get "value" v = Some JNull /\ json_get "confidence" v = Some (JNum 0))) /\
  (exists md,
     json_get "extraction_metadata" out = Some md /\
     json_get "error" md = Some (JStr "Extraction failed")).
Proof.
  intros [m Hm] out.
  assert (Hout : out = _get_empty_attributes_response cfg).
  { subst out. unfold extract_attributes. destruct Hm as [Hm|Hm]; rewrite Hm; reflexivity. }
  rewrite Hout. unfold _get_empty_attributes_response.
  destruct (empty_attributes_spec cfg [] (NoDup_nil _) (fun x w H => match H with end))
    as [H1 [H2 H3]].
  split.
  - eexists. split; [reflexivity|]. split; [exact H1|]. split.
    + intros k. rewrite H2. simpl. tauto.
    + intros k v Hin. rewrite (H3 k v Hin). split; reflexivity.
  - eexists. split; reflexivity.
Qed.

Lemma fallback_mirrors_schema_witness :
  let B := {| json_loads := fun _ => None;
              invoke_model := fun _ _ => ClientError "ThrottlingException" |} in
  (exists m,
     invoke_model B (_build_extraction_system_prompt Fixtures.revenue_schema)
       (user_message "Revenue: 1500000") = ClientError m \/
     invoke_model B (_build_extraction_system_prompt Fixtures.revenue_schema)
       (user_message "Revenue: 1500000") = ServiceFailure m) /\
  (exists attrs,
     json_get "extracted_attributes" (extract_attributes B "Revenue: 1500000" Fixtures.revenue_schema)
       = Some (JObj attrs) /\
     NoDup (map fst attrs) /\
     (forall k, In k (map fst attrs) <-> In k (map attr_name Fixtures.revenue_schema)) /\
     (forall k v, In (k, v) attrs ->
        json_get "value" v = Some JNull /\ json_get "confidence" v = Some (JNum 0))) /\
  (exists md,
     json_get "extraction_metadata" (extract_attributes B "Revenue: 1500000" Fixtures.revenue_schema)
       = Some md /\
     json_get "error" md = Some (JStr "Extraction failed")).
Proof.
  intros B.
  assert (H : exists m,
     invoke_model B (_build_extraction_system_prompt Fixtures.revenue_schema)
       (user_message "Revenue: 1500000") = ClientError m \/
     invoke_model B (_build_extraction_system_prompt Fixtures.revenue_schema)
       (user_message "Revenue: 1500000") = ServiceFailure m)
    by (eexists; left; reflexivity).
  split; [exact H|]. exact (fallback_mirrors_schema B "Revenue: 1500000" Fixtures.revenue_schema H).
Defined.

(** C4 as stated fails: when the model replies with the example object of
    the prompt itself, the confidence 0.95 is returned although the weighted
    breakdown is 0.9365. *)
Lemma model_confidence_counterexample :
  ~ formula_invariant
      (extract_attributes (Fixtures.bedrock Fixtures.prompt_example_reply
                                           Fixtures.prompt_example_json)
         "Revenue: $1,500,000" Fixtures.revenue_schema).
Proof.
  intros H.
  assert (Hin : In ("Total Revenue",
            JObj [("value", JStr "1500000"); ("confidence", JNum (95 # 100));
                  ("confidence_breakdown",
                     JObj [("text_clarity", JNum (95 # 100)); ("exact_match", JNum (90 # 100));
                           ("context_match", JNum (98 # 100)); ("format_validity", JNum (92 # 100))])])
          (attribute_values
             (extract_attributes (Fixtures.bedrock Fixtures.prompt_example_reply
                                                  Fixtures.prompt_example_json)
                "Revenue: $1,500,000" Fixtures.revenue_schema)))
    by (vm_compute; left; reflexivity).
  specialize (H _ _ _ _ Hin eq_refl eq_refl).
  vm_compute in H. discriminate H.
Qed.

(** C4 (amended).  On a successful model call whose reply parses as JSON,
    [extract_attributes] returns the parsed object unchanged: every
    attribute's confidence is the number the model reported.  The weighted
    formula appears only in the system prompt; nothing checks or recomputes
    it. *)
Theorem model_reply_returned_verbatim (B : bedrock_env) (t : string)
  (cfg : list attribute_config) (reply : string) (d : json) :
  invoke_model B (_build_extraction_system_prompt cfg) (user_message t) = Reply reply ->
  json_loads B reply = Some d ->
  extract_attributes B t cfg = d.
Proof.
  intros Hi Hl. unfold extract_attributes. rewrite Hi, Hl. reflexivity.
Qed.

Lemma model_reply_returned_verbatim_witness :
  let B := Fixtures.bedrock Fixtures.prompt_example_reply Fixtures.prompt_example_json in
  invoke_model B (_build_extraction_system_prompt Fixtures.revenue_schema)
    (user_message "Revenue: $1,500,000") = Reply Fixtures.prompt_example_reply /\
  json_loads B Fixtures.prompt_example_reply = Some Fixtures.prompt_example_json /\
  extract_attributes B "Revenue: $1,500,000" Fixtures.revenue_schema = Fixtures.prompt_example_json.
Proof.
  intros B.
  assert (H1 : invoke_model B (_build_extraction_system_prompt Fixtures.revenue_schema)
                 (user_message "Revenue: $1,500,000") = Reply Fixtures.prompt_example_reply)
    by reflexivity.
  assert (H2 : json_loads B Fixtures.prompt_example_reply = Some Fixtures.prompt_example_json)
    by (vm_compute; reflexivity).
  split; [exact H1|]. split; [exact H2|].
  exact (model_reply_returned_verbatim B _ _ _ _ H1 H2).
Defined.

(** ** The batch coordinator *)

Lemma replace_first_length (x y : Z) (l : list Z) :
  length (replace_first x y l) = length l.
Proof.
  induction l as [|z r IH]; simpl; [reflexivity|].
  destruct (z =? x)%Z; simpl; congruence.
Qed.

Lemma completion_times_length (ds : list Z) :
  forall free, free <> [] -> length (completion_times free ds) = length ds.
Proof.
  induction ds as [|d r IH]; intros [|f fs] Hne; simpl; try reflexivity; [congruence|].
  f_equal. apply IH. destruct (Z.eqb_spec f (list_min f fs)); discriminate.
Qed.

Lemma collect_results_length (now : Z) (items : list (string * batch_entry * Z)) :
  length (collect_results now items) = length items.
Proof.
  revert now. induction items as [|[[k r] d] items IH]; intros now; simpl;
    [reflexivity|].
  destruct (d <=? now + 300)%Z; simpl; rewrite IH; reflexivity.
Qed.

(** The entry at position [i] is the task's own result or a timeout
    placeholder for its key. *)
Lemma collect_results_nth (items : list (string * batch_entry * Z)) :
  forall now i k r d,
  nth_error items i = Some (k, r, d) ->
  nth_error (collect_results now items) i = Some r \/
  nth_error (collect_results now items) i = Some (placeholder k "").
Proof.
  induction items as [|[[k0 r0] d0] items IH]; intros now i k r d Hi.
  - destruct i; discriminate.
  - simpl. destruct (d0 <=? now + 300)%Z; destruct i as [|i]; simpl in Hi |- *.
    + injection Hi as -> -> ->. left. reflexivity.
    + exact (IH _ i k r d Hi).
    + injection Hi as -> -> ->. right. reflexivity.
    + exact (IH _ i k r d Hi).
Qed.

(** What entry [i] is depends only on the keys, the completion times and
    the [i]-th task's own result. *)
Lemma collect_results_local (keys : list string) :
  forall (res1 res2 : list batch_entry) (dones : list Z) now i,
  length res1 = length res2 ->
  nth_error res1 i = nth_error res2 i ->
  nth_error (collect_results now (combine (combine keys res1) dones)) i =
  nth_error (collect_results now (combine (combine keys res2) dones)) i.
Proof.
  induction keys as [|k keys IH]; intros res1 res2 dones now i Hl Hi; simpl;
    [reflexivity|].
  destruct res1 as [|r1 res1], res2 as [|r2 res2]; try discriminate; [reflexivity|].
  destruct dones as [|d dones]; simpl; [reflexivity|].
  injection Hl as Hl.
  destruct (d <=? now + 300)%Z; destruct i as [|i]; simpl in Hi |- *.
  - exact Hi.
  - apply IH; assumption.
  - reflexivity.
  - apply IH; assumption.
Qed.

Lemma nth_error_combine {A B : Type} (l1 : list A) (l2 : list B) :
  forall i a b, nth_error l1 i = Some a -> nth_error l2 i = Some b ->
  nth_error (combine l1 l2) i = Some (a, b).
Proof.
  revert l2. induction l1 as [|x l1 IH]; intros l2 i a b H1 H2; [destruct i; discriminate|].
  destruct l2 as [|y l2]; [destruct i; discriminate|].
  destruct i as [|i]; simpl in *; [congruence|]. apply IH; assumption.
Qed.

Lemma nth_error_length_some {A : Type} (l : list A) (i : nat) (a : A) :
  nth_error l i = Some a -> (i < length l)%nat.
Proof. intros H. apply nth_error_Some. congruence. Qed.

(** C6, what the code guarantees.  [process_multiple_pdfs] returns one entry per key, in
    input order.  Entry [i] is [_process_single_pdf]'s result for key [i] or,
    when the wait on it timed out, a placeholder with the key's basename,
    the key, empty text, the error, processing time 0 and confidence 0.0; a
    failed download gives the same placeholder shape with the download's
    error.  Entry [i] depends only on key [i]'s own processing and on the
    tasks' run times: another document's failure never changes it. *)
Theorem batch_isolation {page image : Type} (E : pdf_env page image)
  (BE : batch_env) (keys : list string) :
  let out := process_multiple_pdfs E BE keys in
  length out = length keys /\
  (forall i k, nth_error keys i = Some k ->
     nth_error out i = Some (_process_single_pdf E BE k) \/
     nth_error out i = Some (placeholder k "")) /\
  (forall i k e, nth_error keys i = Some k -> download_pdf BE k = inl e ->
     nth_error out i = Some (placeholder k e) \/
     nth_error out i = Some (placeholder k "")) /\
  (forall BE' : batch_env,
     (forall k, run_time BE' k = run_time BE k) ->
     forall i k, nth_error keys i = Some k ->
     download_pdf BE' k = download_pdf BE k ->
     nth_error (process_multiple_pdfs E BE' keys) i = nth_error out i).
Proof.
  intros out.
  assert (Hlen_d : length (completion_times [0; 0; 0]%Z (map (run_time BE) keys)) = length keys).
  { rewrite completion_times_length by discriminate. apply length_map. }
  assert (Hnth : forall i k, nth_error keys i = Some k ->
            nth_error out i = Some (_process_single_pdf E BE k) \/
            nth_error out i = Some (placeholder k "")).
  { intros i k Hk. subst out. unfold process_multiple_pdfs.
    assert (Hi : (i < length keys)%nat) by (eapply nth_error_length_some; eauto).
    destruct (nth_error (completion_times [0; 0; 0]%Z (map (run_time BE) keys)) i) as [d|] eqn:Hd;
      [|apply nth_error_None in Hd; lia].
    eapply collect_results_nth.
    apply nth_error_combine; [|exact Hd].
    apply nth_error_combine; [exact Hk|].
    rewrite nth_error_map, Hk. reflexivity. }
  split; [|split; [exact Hnth | split]].
  - subst out. unfold process_multiple_pdfs.
    rewrite collect_results_length, !length_combine, length_map, Hlen_d. lia.
  - intros i k e Hk He. destruct (Hnth i k Hk) as [H|H]; [left|right; exact H].
    rewrite H. unfold _process_single_pdf. rewrite He. reflexivity.
  - intros BE' Hrt i k Hk Hdl. subst out. unfold process_multiple_pdfs.
    replace (map (run_time BE') keys) with (map (run_time BE) keys)
      by (apply map_ext; intros; symmetry; apply Hrt).
    apply collect_results_local.
    + rewrite !length_map. reflexivity.
    + rewrite !nth_error_map, Hk. simpl. unfold _process_single_pdf. rewrite Hdl. reflexivity.
Qed.

Lemma batch_isolation_witness :
  let E := Fixtures.env [] [] [] in
  let BE := {| download_pdf := fun k => if String.eqb k "in/bad.pdf" then inl "NoSuchKey" else inr [];
               run_time := fun _ => 20%Z |} in
  nth_error ["in/a.pdf"; "in/bad.pdf"] 1 = Some "in/bad.pdf" /\
  download_pdf BE "in/bad.pdf" = inl "NoSuchKey" /\
  (nth_error (process_multiple_pdfs E BE ["in/a.pdf"; "in/bad.pdf"]) 1 =
     Some (placeholder "in/bad.pdf" "NoSuchKey") \/
   nth_error (process_multiple_pdfs E BE ["in/a.pdf"; "in/bad.pdf"]) 1 =
     Some (placeholder "in/bad.pdf" "")).
Proof.
  intros E BE.
  assert (H1 : nth_error ["in/a.pdf"; "in/bad.pdf"] 1 = Some "in/bad.pdf") by reflexivity.
  assert (H2 : download_pdf BE "in/bad.pdf" = inl "NoSuchKey") by reflexivity.
  split; [exact H1|]. split; [exact H2|].
  exact (proj1 (proj2 (proj2 (batch_isolation E BE ["in/a.pdf"; "in/bad.pdf"]))) 1%nat _ _ H1 H2).
Defined.

(** C6 as stated fails: of two documents started together, the second runs
    400 seconds, longer than the 300-second limit, and is still returned as
    its extraction result, because its wait only starts when the first
    document's result arrives at 250 seconds. *)
Lemma slow_document_returned_counterexample :
  let E := Fixtures.env [] [] [] in
  let BE := {| download_pdf := fun _ => inr [];
               run_time := fun k => if String.eqb k "b.pdf" then 400%Z else 250%Z |} in
  (300 < run_time BE "b.pdf")%Z /\
  match nth_error (process_multiple_pdfs E BE ["a.pdf"; "b.pdf"]) 1 with
  | Some (Extracted _ _) => True
  | _ => False
  end.
Proof. split; [reflexivity | vm_compute; exact I]. Qed.

(** ** The UI confidence band *)

Lemma Qle_bool_false (x y : Q) : Qle_bool x y = false -> y < x.
Proof.
  intros H. apply Qnot_le_lt. intros Hle. apply Qle_bool_iff in Hle. congruence.
Qed.

(** C8, the code's banding.  The band of a document's confidence in the UI is fixed
    in the code: green (high) above 0.8, yellow (medium) above 0.5 up to
    and including 0.8, red (low) at 0.5 and below. *)
Theorem confidence_color_bands (c : Q) :
  (4 # 5 < c -> confidence_color c = Green) /\
  (1 # 2 < c -> c <= 4 # 5 -> confidence_color c = Yellow) /\
  (c <= 1 # 2 -> confidence_color c = Red).
Proof.
  unfold confidence_color.
  destruct (Qle_bool c (4 # 5)) eqn:H8; [apply Qle_bool_iff in H8 | apply Qle_bool_false in H8];
  destruct (Qle_bool c (1 # 2)) eqn:H5; try (apply Qle_bool_iff in H5); try (apply Qle_bool_false in H5);
  simpl; repeat split; intros; first [reflexivity | lra].
Qed.

Lemma confidence_color_bands_witness :
  1 # 2 < 65 # 100 /\ 65 # 100 <= 4 # 5 /\ confidence_color (65 # 100) = Yellow.
Proof.
  assert (H1 : 1 # 2 < 65 # 100) by (vm_compute; reflexivity).
  assert (H2 : 65 # 100 <= 4 # 5) by (vm_compute; discriminate).
  split; [exact H1|]. split; [exact H2|].
  exact (proj1 (proj2 (confidence_color_bands (65 # 100))) H1 H2).
Defined.

(** C8 fails at 0.8: a confidence of exactly 0.8 is high in the spec's
    banding and in the UI's own legend, but [confidence > 0.8] shows it
    yellow (medium).  At 0.55 the code and the legend agree on medium,
    where the spec's 0.6 threshold says low. *)
Lemma band_boundary_counterexample :
  spec_quality_band (4 # 5) = High /\
  legend_quality (4 # 5) = High /\
  band_quality (confidence_color (4 # 5)) = Medium /\
  spec_quality_band (55 # 100) = Low /\
  legend_quality (55 # 100) = Medium /\
  band_quality (confidence_color (55 # 100)) = Medium.
Proof. repeat split; vm_compute; reflexivity. Qed.

(** ** Year-over-year analysis *)












Lemma existsb_perm {A : Type} (f : A -> bool) (l l' : list A) :
  Permutation l l' -> existsb f l = existsb f l'.
Proof.
  induction 1; simpl; try congruence.
  destruct (f x), (f y); reflexivity.
Qed.


Lemma has_column_perm (df df' : frame) (c : string) :
  Permutation df df' -> has_column df c = has_column df' c.
Proof. apply existsb_perm. Qed.








(** ** Page failures in the text extractors *)

(** X1: a page that raises inside pdfplumber, or whose PyMuPDF [get_text]
    raises, makes that extractor return the empty string: the text of the
    other pages is dropped with it. *)
Lemma extraction_page_error_discards_text {page image : Type} (E : pdf_env page image)
  (b : bytes) :
  (forall ps e, pdfplumber_pages E b = inr ps -> In (inl e) ps ->
     _extract_with_pdfplumber E b = "") /\
  (forall doc p e, fitz_open E b = inr doc -> In p doc -> page_get_text E p = inl e ->
     _extract_with_pymupdf E b = "").
Proof.
  split.
  - intros ps e Hps Hin. unfold _extract_with_pdfplumber. rewrite Hps.
    match goal with |- match ?F ps with _ => _ end = _ =>
      assert (K : forall l, In (inl e) l -> exists e', F l = inl e') end.
    { induction l as [|x l IH]; [intros []|].
      intros [->|H]; simpl; [eauto|].
      destruct x as [e0|[t|]]; eauto.
      destruct (IH H) as [e' ->]. eauto. }
    destruct (K ps Hin) as [e' ->]. reflexivity.
  - intros doc p e Hd Hin He. unfold _extract_with_pymupdf. rewrite Hd.
    match goal with |- match ?F doc with _ => _ end = _ =>
      assert (K : forall l, In p l -> exists e', F l = inl e') end.
    { induction l as [|x l IH]; [intros []|].
      intros [->|H]; simpl; [rewrite He; eauto|].
      destruct (page_get_text E x); eauto.
      destruct (IH H) as [e' ->]. eauto. }
    destruct (K doc Hin) as [e' ->]. reflexivity.
Qed.

Lemma extraction_page_error_discards_text_witness :
  _extract_with_pdfplumber Fixtures.failing_env [] = "" /\
  _extract_with_pymupdf Fixtures.failing_env [] = "".
Proof.
  split.
  - apply (proj1 (extraction_page_error_discards_text Fixtures.failing_env [])
             [inr (Some "Revenue 100"); inl "PDFSyntaxError"] "PDFSyntaxError");
      [reflexivity|simpl; auto].
  - apply (proj2 (extraction_page_error_discards_text Fixtures.failing_env [])
             ["Revenue 100"; "bad"] "bad" "RuntimeError");
      [reflexivity|simpl; auto|reflexivity].
Defined.

(** ** S3 access *)

(** X2: [download_pdf] calls [get_object] exactly when [head_object]
    succeeded and reported a size of at most 100 MB. *)
Lemma download_fetches_only_small_files (S : s3_env) (format_2f : Q -> string)
  (bucket key : string) :
  In GetObject (snd (download_pdf_traced S format_2f bucket key)) <->
  exists file_size, head_object S bucket key = S3Ok file_size /\ (file_size <= max_file_size)%Z.
Proof.
  unfold download_pdf_traced.
  destruct (head_object S bucket key) as [file_size|m|m]; simpl.
  - destruct (max_file_size <? file_size)%Z eqn:Hs.
    + apply Z.ltb_lt in Hs. simpl. split; [intros [H|[]]; discriminate|].
      intros [fs [E H]]. injection E as <-. lia.
    + apply Z.ltb_ge in Hs.
      split; [intros _; eauto|intros _].
      destruct (get_object S bucket key); simpl; auto.
  - split; [intros [H|[]]; discriminate|intros [fs [E _]]; discriminate].
  - split; [intros [H|[]]; discriminate|intros [fs [E _]]; discriminate].
Qed.

Lemma insert_newest_first_perm (x : pdf_info) (l : list pdf_info) :
  Permutation (insert_newest_first x l) (x :: l).
Proof.
  induction l as [|y l IH]; simpl; [auto|].
  destruct (info_last_modified x <=? info_last_modified y)%Z; [|auto].
  rewrite IH. apply perm_swap.
Qed.

Lemma insert_newest_first_sorted (x : pdf_info) (l : list pdf_info) :
  Sorted newer_first l -> Sorted newer_first (insert_newest_first x l).
Proof.
  induction l as [|y l IH]; simpl; intros Hs; [auto|].
  destruct (info_last_modified x <=? info_last_modified y)%Z eqn:Hxy.
  - apply Z.leb_le in Hxy. apply Sorted_inv in Hs as [Hl Hh].
    constructor; [auto|].
    destruct l as [|z l]; simpl; [constructor; exact Hxy|].
    destruct (info_last_modified x <=? info_last_modified z)%Z; constructor;
      [now inversion Hh|exact Hxy].
  - apply Z.leb_gt in Hxy. constructor; [exact Hs|]. constructor. unfold newer_first. lia.
Qed.

Lemma sort_newest_first_spec (l acc : list pdf_info) :
  Sorted newer_first acc ->
  Sorted newer_first (fold_left (fun a x => insert_newest_first x a) l acc) /\
  Permutation (fold_left (fun a x => insert_newest_first x a) l acc) (l ++ acc).
Proof.
  revert acc. induction l as [|x l IH]; intros acc Hs; simpl; [auto|].
  destruct (IH (insert_newest_first x acc)) as [H1 H2];
    [apply insert_newest_first_sorted; exact Hs|].
  split; [exact H1|]. rewrite H2, insert_newest_first_perm.
  symmetry. apply Permutation_middle.
Qed.

(** X3: when the bucket is set and the listing succeeds, [list_pdfs_from_s3]
    returns, newest first, one entry for each listed object whose lower-cased
    key ends in [.pdf] and that is not the folder prefix itself, and nothing
    else. *)
Lemma list_pdfs_sorted_and_complete (S : s3_env) (cfg : s3_config) (py_round2 : Q -> Q)
  (bucket_name_arg : string) (contents : list s3_object) :
  let '(bucket, prefix) := listing_location cfg bucket_name_arg in
  py_truthy bucket = true ->
  list_objects_v2 S bucket prefix = S3Ok (Some contents) ->
  exists infos,
    list_pdfs_from_s3 S cfg py_round2 bucket_name_arg = inr infos /\
    Sorted newer_first infos /\
    Permutation infos
      (map (pdf_info_of py_round2 bucket prefix) (filter (is_listed_pdf prefix) contents)) /\
    (forall i, In i infos ->
       py_endswith ".pdf" (py_lower (info_key i)) = true /\ info_key i <> prefix).
Proof.
  unfold list_pdfs_from_s3. destruct (listing_location cfg bucket_name_arg) as [bucket prefix].
  intros Hb Hl. rewrite Hb, Hl. cbn [negb].
  set (l := map (pdf_info_of py_round2 bucket prefix) (filter (is_listed_pdf prefix) contents)).
  destruct (sort_newest_first_spec l [] (Sorted_nil _)) as [Hs Hp].
  rewrite app_nil_r in Hp.
  exists (sort_newest_first l). split; [reflexivity|]. split; [exact Hs|]. split; [exact Hp|].
  intros i Hi. apply (Permutation_in _ Hp) in Hi. unfold l in Hi.
  apply in_map_iff in Hi as [o [<- Ho]]. apply filter_In in Ho as [_ Ho].
  unfold is_listed_pdf in Ho. apply andb_prop in Ho as [H1 H2].
  simpl. split; [exact H1|]. intros E. rewrite E, String.eqb_refl in H2. discriminate.
Qed.

Lemma list_pdfs_sorted_and_complete_witness :
  exists infos,
    list_pdfs_from_s3 (Fixtures.s3_listing Fixtures.objects) Fixtures.single_bucket
      (fun q => q) "" = inr infos /\
    Sorted newer_first infos /\ length infos = 2%nat.
Proof.
  destruct (list_pdfs_sorted_and_complete (Fixtures.s3_listing Fixtures.objects)
              Fixtures.single_bucket (fun q => q) "" Fixtures.objects eq_refl eq_refl)
    as [infos [H1 [H2 [H3 _]]]].
  exists infos. split; [exact H1|]. split; [exact H2|].
  rewrite (Permutation_length H3). vm_compute. reflexivity.
Defined.

(** ** JSON recovery from the model's reply *)

Lemma substring_len_zero (n : nat) (s : string) : substring n 0 s = "".
Proof.
  revert s. induction n as [|n IH]; intros [|c s]; simpl; auto.
Qed.

Lemma py_rfind_ge (c : ascii) (s : string) : (-1 <= py_rfind c s)%Z.
Proof.
  induction s as [|c' s IH]; simpl; [lia|].
  destruct (py_rfind c s =? -1)%Z eqn:E.
  - destruct (Ascii.eqb c c'); lia.
  - apply Z.eqb_neq in E. lia.
Qed.

(** X4: [_extract_json_from_text] on a text without [{] returns the error
    document "Failed to parse JSON response"; on a text whose last [}] comes
    before its first [{], it parses the empty slice, and when [json.loads]
    rejects the empty string it returns "Failed to parse response". *)
Lemma extract_json_from_text_braces (B : bedrock_env) (t : string) :
  (py_find "{" t = (-1)%Z ->
   _extract_json_from_text B t = error_doc "Failed to parse JSON response") /\
  (json_loads B "" = None -> py_find "{" t <> (-1)%Z ->
   (py_rfind "}" t < py_find "{" t)%Z ->
   _extract_json_from_text B t = error_doc "Failed to parse response").
Proof.
  unfold _extract_json_from_text. split.
  - intros H. rewrite H. reflexivity.
  - intros Hl Hs Hr.
    pose proof (py_rfind_ge "}" t) as Hge.
    apply Z.eqb_neq in Hs. rewrite Hs.
    assert (He : (py_rfind "}" t + 1 =? -1)%Z = false) by (apply Z.eqb_neq; lia).
    rewrite He. simpl. unfold py_slice.
    replace (Z.to_nat (py_rfind "}" t + 1 - py_find "{" t)) with 0%nat by lia.
    rewrite substring_len_zero, Hl. reflexivity.
Qed.

Lemma extract_json_from_text_braces_witness :
  _extract_json_from_text (Fixtures.bedrock "x" JNull) "no object" =
    error_doc "Failed to parse JSON response" /\
  _extract_json_from_text (Fixtures.bedrock "x" JNull) "} {" =
    error_doc "Failed to parse response".
Proof.
  split.
  - apply (proj1 (extract_json_from_text_braces (Fixtures.bedrock "x" JNull) "no object")).
    vm_compute. reflexivity.
  - apply (proj2 (extract_json_from_text_braces (Fixtures.bedrock "x" JNull) "} {"));
      [reflexivity|vm_compute; discriminate|vm_compute; reflexivity].
Defined.

(** ** The chat interface *)

Lemma lastn_app_lastn {A : Type} (n : nat) (l m : list A) :
  lastn n (lastn n l ++ m) = lastn n (l ++ m).
Proof.
  unfold lastn. rewrite !length_app, length_skipn, !skipn_app, skipn_skipn, length_skipn.
  f_equal; [f_equal; lia|f_equal; lia].
Qed.

Lemma lastn_short {A : Type} (n : nat) (l : list A) : (length l <= n)%nat -> lastn n l = l.
Proof. intros H. unfold lastn. replace (length l - n)%nat with 0%nat by lia. reflexivity. Qed.

(** X5: starting from a history of at most ten exchanges, any sequence of
    [handle_user_input] calls leaves the last ten of the old history followed
    by one exchange per non-blank input (none when the context is empty);
    blank inputs and refusals leave the state alone, and the context data is
    never changed. *)
Lemma history_keeps_last_ten (B : bedrock_env) (py_str : pyval -> string)
  (st : bot_state) (inputs : list string) :
  (length (conversation_history st) <= max_history_length)%nat ->
  conversation_history (run_inputs B py_str st inputs) =
    lastn max_history_length
      (conversation_history st ++ answered_exchanges B py_str (context_data st) inputs) /\
  context_data (run_inputs B py_str st inputs) = context_data st.
Proof.
  unfold run_inputs, answered_exchanges. revert st.
  induction inputs as [|u inputs IH]; intros st Hlen; simpl.
  - destruct (py_bool (context_data st)); rewrite app_nil_r, lastn_short by exact Hlen; auto.
  - unfold nonblank at 1.
    destruct (negb (py_truthy u) || negb (py_truthy (py_strip u))) eqn:Hb.
    + replace (snd (handle_user_input B py_str st u)) with st
        by (unfold handle_user_input; rewrite Hb; reflexivity).
      replace (py_truthy u && py_truthy (py_strip u)) with false
        by (destruct (py_truthy u), (py_truthy (py_strip u)); simpl in *; congruence).
      apply IH. exact Hlen.
    + replace (py_truthy u && py_truthy (py_strip u)) with true
        by (destruct (py_truthy u), (py_truthy (py_strip u)); simpl in *; congruence).
      destruct (py_bool (context_data st)) eqn:Hc.
      * set (h := (conversation_history st ++ [(u, chatbot_response B py_str u (context_data st))])%list).
        replace (snd (handle_user_input B py_str st u))
          with (mk_bot_state (lastn max_history_length h) (context_data st)).
        2:{ unfold handle_user_input. rewrite Hb, Hc. simpl. f_equal.
            unfold lastn. fold h. destruct (max_history_length <? length h)%nat eqn:E; [reflexivity|].
            apply Nat.ltb_ge in E. replace (length h - max_history_length)%nat with 0%nat by lia.
            reflexivity. }
        destruct (IH (mk_bot_state (lastn max_history_length h) (context_data st))) as [H1 H2].
        { simpl. unfold lastn. rewrite length_skipn. lia. }
        simpl in H1, H2. rewrite Hc in H1. rewrite H1, H2. split; [|reflexivity].
        unfold h. rewrite lastn_app_lastn, <- app_assoc. reflexivity.
      * replace (snd (handle_user_input B py_str st u)) with st
          by (unfold handle_user_input; rewrite Hb, Hc; reflexivity).
        destruct (IH st Hlen) as [H1 H2]. rewrite Hc in H1. rewrite H1, H2. auto.
Qed.

Lemma history_keeps_last_ten_witness :
  length (conversation_history
            (run_inputs (Fixtures.bedrock "ok" JNull) (fun _ => "")
               (mk_bot_state [] (PDict (Fixtures.chat_context 0)))
               ("  " :: repeat "Revenue?" 12))) = 10%nat.
Proof.
  rewrite (proj1 (history_keeps_last_ten (Fixtures.bedrock "ok" JNull) (fun _ => "")
                    (mk_bot_state [] (PDict (Fixtures.chat_context 0)))
                    ("  " :: repeat "Revenue?" 12) ltac:(simpl; lia))).
  vm_compute. reflexivity.
Defined.

Lemma assoc_get_some_existsb {V : Type} (k : string) (kvs : list (string * V)) (v : V) :
  assoc_get k kvs = Some v -> existsb (fun kv => String.eqb (fst kv) k) kvs = true.
Proof.
  induction kvs as [|[k' v'] r IH]; simpl; [discriminate|]. intros H.
  rewrite (String.eqb_sym k'). destruct (String.eqb k k'); [reflexivity|auto].
Qed.

Lemma assoc_get_none_existsb {V : Type} (k : string) (kvs : list (string * V)) :
  assoc_get k kvs = None -> existsb (fun kv => String.eqb (fst kv) k) kvs = false.
Proof.
  induction kvs as [|[k' v'] r IH]; simpl; [auto|]. intros H.
  rewrite (String.eqb_sym k'). destruct (String.eqb k k'); [discriminate|auto].
Qed.

Lemma py_in_dict_some (k : string) (kvs : list (string * pyval)) (v : pyval) :
  assoc_get k kvs = Some v -> py_in k (PDict kvs) = inr true.
Proof. intros H. simpl. rewrite (assoc_get_some_existsb _ _ _ H). reflexivity. Qed.

Lemma py_in_dict_none (k : string) (kvs : list (string * pyval)) :
  assoc_get k kvs = None -> py_in k (PDict kvs) = inr false.
Proof. intros H. simpl. rewrite (assoc_get_none_existsb _ _ H). reflexivity. Qed.

Lemma py_bool_dict_some (k : string) (kvs : list (string * pyval)) (v : pyval) :
  assoc_get k kvs = Some v -> py_bool (PDict kvs) = true.
Proof. destruct kvs; simpl; [discriminate|reflexivity]. Qed.

Lemma metric_present_not_none (v : pyval) : metric_present v = negb (is_none v).
Proof. destruct v; simpl; try reflexivity. destruct (negb _); reflexivity. Qed.

Lemma metrics_loop_dict (attrs : list (string * pyval)) (ms : list string) :
  metrics_loop (PDict attrs) ms = inr (filter (metric_entry_present attrs) ms).
Proof.
  induction ms as [|m ms IH]; [reflexivity|].
  cbn [metrics_loop filter].
  destruct (assoc_get m attrs) as [v|] eqn:E.
  - replace (metric_entry_present attrs m) with (negb (is_none v))
      by (unfold metric_entry_present; rewrite E; reflexivity).
    rewrite (py_in_dict_some _ _ _ E). cbn [bind_exn]. unfold py_getitem. rewrite E.
    cbn [bind_exn]. rewrite IH. cbn [bind_exn].
    rewrite metric_present_not_none. reflexivity.
  - replace (metric_entry_present attrs m) with false
      by (unfold metric_entry_present; rewrite E; reflexivity).
    rewrite (py_in_dict_none _ _ E). cbn [bind_exn]. exact IH.
Qed.

Lemma summary_pdf_count_list (kvs : list (string * pyval)) (l : list pyval) :
  assoc_get "consolidated_data" kvs = Some (PList l) ->
  summary_pdf_count (PDict kvs) = inr (Z.of_nat (length l)).
Proof.
  intros H. unfold summary_pdf_count. rewrite (py_in_dict_some _ _ _ H). cbn [bind_exn].
  unfold py_getitem. rewrite H. reflexivity.
Qed.

(** X6: when the context's [consolidated_data] is a list whose first
    document is a dict with an [extracted_attributes] dict,
    [_get_context_summary] counts every document and lists as available,
    in the fixed order of its seven common metrics, exactly those that have
    an entry in the first document's attributes which is not [None]
    itself; an entry [{'value': None}] is listed. *)
Lemma key_metrics_from_first_document (kvs d0 attrs : list (string * pyval)) (docs : list pyval) :
  assoc_get "consolidated_data" kvs = Some (PList (PDict d0 :: docs)) ->
  assoc_get "extracted_attributes" d0 = Some (PDict attrs) ->
  exists date_range err,
    _get_context_summary (PDict kvs) =
      DataSummary (Z.of_nat (S (length docs))) date_range
        (filter (metric_entry_present attrs) common_metrics) err.
Proof.
  intros Hc Ha. unfold _get_context_summary.
  rewrite (py_bool_dict_some _ _ _ Hc). simpl negb. cbv iota beta.
  rewrite (summary_pdf_count_list _ _ Hc).
  assert (Hm : summary_metrics (PDict kvs) = inr (filter (metric_entry_present attrs) common_metrics)).
  { unfold summary_metrics. rewrite (py_in_dict_some _ _ _ Hc). cbn [bind_exn].
    unfold py_getitem at 1. rewrite Hc. cbn [bind_exn].
    rewrite (py_in_dict_some _ _ _ Ha). cbn [bind_exn].
    unfold py_getitem. rewrite Ha. cbn [bind_exn].
    apply metrics_loop_dict. }
  rewrite Hm. simpl length.
  destruct (summary_years (PDict kvs)); eauto.
Qed.

Lemma key_metrics_from_first_document_witness :
  exists date_range err,
    _get_context_summary (PDict (Fixtures.chat_context 2)) =
      DataSummary 3 date_range ["Total Revenue"; "Total Assets"] err.
Proof.
  apply (key_metrics_from_first_document (Fixtures.chat_context 2)
           [("extracted_attributes",
             PDict [("Total Revenue", PDict [("value", PInt 5)]); ("Net Income", PNone);
                    ("Total Assets", PDict [("value", PNone)])])]
           [("Total Revenue", PDict [("value", PInt 5)]); ("Net Income", PNone);
            ("Total Assets", PDict [("value", PNone)])]
           (repeat (PDict []) 2)); reflexivity.
Defined.

(** X7: with at least two documents in [consolidated_data],
    [_get_suggested_questions] returns the three basic questions followed by
    the first two multi-period questions: the cut at five drops the
    third. *)
Lemma suggestions_with_several_documents (kvs : list (string * pyval)) (l : list pyval) :
  assoc_get "consolidated_data" kvs = Some (PList l) -> (2 <= length l)%nat ->
  _get_suggested_questions (PDict kvs) =
    (basic_questions ++ firstn 2 multi_period_questions)%list.
Proof.
  intros Hc Hl. unfold _get_suggested_questions.
  rewrite (py_bool_dict_some _ _ _ Hc). simpl negb. cbv iota beta.
  assert (Hn : exists ms, (let '(n, _) :=
             match _get_context_summary (PDict kvs) with
             | NoDataSummary => (0%Z, [])
             | DataSummary n _ ms _ => (n, ms)
             end in n) = Z.of_nat (length l) /\
             match _get_context_summary (PDict kvs) with
             | NoDataSummary => (0%Z, [])
             | DataSummary n _ ms _ => (n, ms)
             end = (Z.of_nat (length l), ms)).
  { unfold _get_context_summary. rewrite (py_bool_dict_some _ _ _ Hc). simpl negb. cbv iota beta.
    rewrite (summary_pdf_count_list _ _ Hc).
    destruct (summary_metrics (PDict kvs)) as [e|ms];
      [|destruct (summary_years (PDict kvs))]; eexists; split; reflexivity. }
  destruct Hn as [ms [_ ->]].
  replace (0 <? Z.of_nat (length l))%Z with true by (symmetry; apply Z.ltb_lt; lia).
  replace (1 <? Z.of_nat (length l))%Z with true by (symmetry; apply Z.ltb_lt; lia).
  reflexivity.
Qed.

Lemma suggestions_with_several_documents_witness :
  _get_suggested_questions (PDict (Fixtures.chat_context 1)) =
    (basic_questions ++ firstn 2 multi_period_questions)%list.
Proof.
  apply (suggestions_with_several_documents (Fixtures.chat_context 1)
           [PDict [("extracted_attributes",
                    PDict [("Total Revenue", PDict [("value", PInt 5)]); ("Net Income", PNone);
                           ("Total Assets", PDict [("value", PNone)])])];
            PDict []]); [reflexivity|simpl; lia].
Defined.

Lemma metric_lines_non_dict (py_str : pyval -> string) (attrs : list (string * pyval))
  (name : string) (v : pyval) :
  In (name, v) attrs -> (forall d, v <> PDict d) ->
  exists e, metric_lines py_str attrs = inl e.
Proof.
  intros Hin Hv. induction attrs as [|[n a] r IH]; [destruct Hin|].
  destruct Hin as [E|Hin].
  - injection E as -> ->. simpl. destruct v; try (eexists; reflexivity).
    exfalso. eapply Hv. reflexivity.
  - simpl. destruct (IH Hin) as [e He].
    destruct a; try (eexists; reflexivity).
    cbn [bind_exn]. rewrite He. eexists; reflexivity.
Qed.

(** X8: when the first document's [extracted_attributes] holds a value that
    is not a dict, [_prepare_context_summary] raises on its [.get], and
    [chatbot_response] returns the apology without calling the model. *)
Lemma chatbot_non_dict_attribute (B : bedrock_env) (py_str : pyval -> string)
  (kvs d0 attrs : list (string * pyval)) (docs : list pyval) (name : string) (v : pyval)
  (user_input : string) :
  assoc_get "consolidated_data" kvs = Some (PList (PDict d0 :: docs)) ->
  assoc_get "extracted_attributes" d0 = Some (PDict attrs) ->
  In (name, v) attrs -> (forall d, v <> PDict d) ->
  chatbot_response_traced B py_str user_input (PDict kvs) = (chatbot_apology, false).
Proof.
  intros Hc Ha Hin Hv. unfold chatbot_response_traced.
  destruct (metric_lines_non_dict py_str attrs name v Hin Hv) as [e He].
  unfold _prepare_context_summary.
  rewrite (py_bool_dict_some _ _ _ Hc). cbn [negb].
  rewrite (py_in_dict_some _ _ _ Hc). cbn [bind_exn].
  unfold py_getitem at 1. rewrite Hc. cbn [bind_exn py_len py_bool].
  rewrite (py_in_dict_some _ _ _ Ha). cbn [bind_exn].
  unfold py_getitem. rewrite Ha. cbn [bind_exn]. rewrite He. reflexivity.
Qed.

Lemma chatbot_non_dict_attribute_witness :
  chatbot_response_traced (Fixtures.bedrock "ok" JNull) (fun _ => "") "Revenue?"
    (PDict Fixtures.bare_context) = (chatbot_apology, false).
Proof.
  apply (chatbot_non_dict_attribute _ _ Fixtures.bare_context
           [("extracted_attributes", PDict [("Total Revenue", PInt 5)])]
           [("Total Revenue", PInt 5)] [] "Total Revenue" (PInt 5));
    [reflexivity|reflexivity|simpl; auto|intros d; discriminate].
Defined.

Lemma py_sum_non_number (vs : list pyval) (c : pyval) :
  In c vs -> py_num c = None -> exists e, py_sum vs = inl e.
Proof.
  induction vs as [|x r IH]; [intros []|]. intros [->|Hin] Hc; simpl.
  - unfold py_number. rewrite Hc. eexists; reflexivity.
  - unfold py_number. destruct (py_num x); [|eexists; reflexivity].
    cbn [bind_exn]. destruct (IH Hin Hc) as [e ->]. eexists; reflexivity.
Qed.

Lemma items_attributes_collects (items : list pyval) (keys : list string) (scores : list pyval)
  (di attrs d : list (string * pyval)) (name : string) (c : pyval) :
  items_attributes items = inr (keys, scores) ->
  In (PDict di) items -> assoc_get "extracted_attributes" di = Some (PDict attrs) ->
  In (name, PDict d) attrs -> assoc_get "confidence" d = Some c ->
  In c scores.
Proof.
  intros H Hi Ha Hn Hc. revert keys scores H.
  induction items as [|it r IH]; [destruct Hi|]. intros keys scores H.
  cbn [items_attributes] in H.
  destruct (item_attributes it) as [e|[k1 s1]] eqn:E1; [discriminate|].
  cbn [bind_exn] in H. destruct (items_attributes r) as [e|[k2 s2]] eqn:E2; [discriminate|].
  cbn [bind_exn fst snd] in H. injection H as <- <-.
  destruct Hi as [->|Hi].
  - unfold item_attributes in E1. rewrite (py_in_dict_some _ _ _ Ha) in E1. cbn [bind_exn] in E1.
    unfold py_getitem in E1. rewrite Ha in E1. cbn [bind_exn] in E1. injection E1 as _ <-.
    apply in_or_app. left. apply in_flat_map. exists (name, PDict d). split; [exact Hn|].
    simpl. rewrite Hc. left. reflexivity.
  - apply in_or_app. right. eapply IH; [exact Hi|reflexivity].
Qed.

(** X9: when some document's attribute carries a confidence that is not a
    number, the [sum] in [_check_data_availability] raises: the result
    reports data quality "unknown" with an error, while the multi-period
    flag, set before, still says whether there is more than one
    document. *)
Lemma non_numeric_confidence_quality_unknown (kvs : list (string * pyval)) (items : list pyval)
  (di attrs d : list (string * pyval)) (name : string) (c : pyval) :
  assoc_get "consolidated_data" kvs = Some (PList items) ->
  In (PDict di) items -> assoc_get "extracted_attributes" di = Some (PDict attrs) ->
  In (name, PDict d) attrs -> assoc_get "confidence" d = Some c -> py_num c = None ->
  data_quality (_check_data_availability (PDict kvs)) = "unknown" /\
  availability_error (_check_data_availability (PDict kvs)) = true /\
  has_multi_period_data (_check_data_availability (PDict kvs)) = (1 <? length items)%nat.
Proof.
  intros Hk Hi Ha Hn Hc Hnum. unfold _check_data_availability.
  rewrite (py_bool_dict_some _ _ _ Hk). cbn [negb]. unfold py_get. rewrite Hk.
  destruct items as [|it0 rest] eqn:Eitems; [destruct Hi|]. rewrite <- Eitems in *.
  destruct (items_attributes items) as [e|[keys scores]] eqn:E; [simpl; auto|].
  pose proof (items_attributes_collects _ _ _ _ _ _ _ _ E Hi Ha Hn Hc) as Hs.
  destruct (py_sum_non_number scores c Hs Hnum) as [e He].
  destruct scores as [|s0 sr]; [destruct Hs|]. rewrite He. simpl. auto.
Qed.

Lemma non_numeric_confidence_quality_unknown_witness :
  data_quality (_check_data_availability (PDict Fixtures.text_confidence_context)) = "unknown" /\
  availability_error (_check_data_availability (PDict Fixtures.text_confidence_context)) = true /\
  has_multi_period_data (_check_data_availability (PDict Fixtures.text_confidence_context)) = true.
Proof.
  apply (non_numeric_confidence_quality_unknown Fixtures.text_confidence_context
           [PDict [("extracted_attributes",
                    PDict [("Total Revenue", PDict [("confidence", PStr "high")])])]; PDict []]
           [("extracted_attributes",
             PDict [("Total Revenue", PDict [("confidence", PStr "high")])])]
           [("Total Revenue", PDict [("confidence", PStr "high")])]
           [("confidence", PStr "high")] "Total Revenue" (PStr "high"));
    [reflexivity|simpl; auto|reflexivity|simpl; auto|reflexivity|reflexivity].
Defined.

(** ** The quality report *)

(** X12: a PDF whose download failed or timed out reaches the Excel sheets
    with empty attributes and a zero confidence: its row on the individual
    sheet shows no error text, and its quality issues are "Low confidence"
    and "No text detected"; the download error is not reported. *)
Lemma placeholder_row_drops_error (B : bedrock_env) (to_py : json -> pyval)
  (cfg : list attribute_config) (key e : string) :
  exists d, app_attach_attributes B to_py cfg (placeholder key e) = inr d /\
    individual_row d = inr [PStr (py_basename key); PStr ""; PInt 0; PStr ""; PInt 0;
                             PFloat 0; PStr "No"; PStr ""] /\
    quality_issues d = inr ["Low confidence"; "No text detected"].
Proof.
  eexists. split; [reflexivity|]. split; reflexivity.
Qed.
